(** * rubrik.py: the polling cycle of the Rubrik monitor

    A shallow embedding of [src/rubrik.py] (Python 3): the values that
    [json.loads] hands to the script, the arithmetic the script performs on
    them, the session/token handling of [get_rubrik_token] and the polling
    cycle [generate_json], followed by the properties of the cycle.

    Conventions of the embedding.
    - A Python object coming out of [json.loads] is a [value]; Python's
      [None] is [VNone], so [rubrik_monitor.token] is a [value] too.
    - An HTTP response is its [status_code] together with what
      [json.loads(r.text)] yields ([None] when it raises).
    - The remote appliance is an oracle: one reply for the login POST and
      one reply per GET endpoint of a cycle.
    - [/] is Python 3 true division: [int / int] is the binary64 float
      nearest to the exact quotient, and [int(...)] truncates that float.
    - A Python exception is a constructor of [exn]; code that may raise
      returns a [res].  Statements of the [try] block run in the monad [M],
      which threads the [RubrikData] object they mutate.
    - Logging and [time.sleep] have no effect on the monitor object and are
      left out. *)

From Stdlib Require Import ZArith Lia Bool String Ascii SpecFloat.
From stdpp Require Import base tactics option list.

Local Open Scope string_scope.
Local Open Scope list_scope.
Local Open Scope Z_scope.
Local Set Warnings "-register-all".

(** ** Exceptions and results *)

(** The nine GET endpoints, in the order [generate_json] queries them. *)
Inductive endpoint :=
  | BackupJobsSummary        (* /api/v1/report/backup_jobs/summary?report_type=daily *)
  | SystemStorage            (* /api/v1/stats/system_storage *)
  | SnapshotStoragePhysical  (* /api/v1/stats/snapshot_storage/physical *)
  | AverageStorageGrowth     (* /api/v1/stats/average_storage_growth_per_day *)
  | PhysicalIngestPerDay     (* /api/v1/stats/physical_ingest_per_day/time_series?range=-2day *)
  | ClusterNode              (* /api/v1/cluster/me/node *)
  | StreamsCount             (* /api/v1/stats/streams/count *)
  | IoStats                  (* /api/v1/cluster/me/io_stats?range=-10sec *)
  | PhysicalIngest.          (* /api/v1/stats/physical_ingest/time_series?range=-10sec *)

(** Position of an endpoint in the documented query order, from 1. *)
Definition query_step (ep : endpoint) : nat :=
  match ep with
  | BackupJobsSummary => 1 | SystemStorage => 2 | SnapshotStoragePhysical => 3
  | AverageStorageGrowth => 4 | PhysicalIngestPerDay => 5 | ClusterNode => 6
  | StreamsCount => 7 | IoStats => 8 | PhysicalIngest => 9
  end%nat.

Inductive exn :=
  | Timeout                     (* requests.exceptions.Timeout *)
  | ConnectionError             (* requests.exceptions.ConnectionError *)
  | HTTPError                   (* requests.exceptions.HTTPError *)
  | RequestException            (* any other failure raised by requests *)
  | JSONDecodeError
  | KeyError
  | IndexError
  | TypeError
  | ValueError
  | OverflowError
  | ZeroDivisionError
  | AttributeError
  | RubrikNotConnectedException (ep : endpoint).

Inductive res (A : Type) :=
  | Ok (a : A)
  | Raise (e : exn).
Arguments Ok {A} a.
Arguments Raise {A} e.

#[global] Instance res_ret : MRet res := @Ok.
#[global] Instance res_bind : MBind res := fun A B f m =>
  match m with
  | Ok a => f a
  | Raise e => Raise e
  end.

(** ** Python values *)

(** What [json.loads] produces: [None], [bool], [int], [float] (binary64,
    as [spec_float]), [str], [list] and [dict] with [str] keys.  A dict is
    kept as the list of its items in insertion order; [json.loads] leaves
    no duplicate key. *)
Inductive value :=
  | VNone
  | VBool (b : bool)
  | VInt (n : Z)
  | VFloat (f : spec_float)
  | VStr (s : string)
  | VList (items : list value)
  | VDict (items : list (string * value)).

Definition is_none (v : value) : bool :=
  match v with VNone => true | _ => false end.

Fixpoint dict_lookup (key : string) (items : list (string * value)) : option value :=
  match items with
  | [] => None
  | (k, v) :: rest => if String.eqb k key then Some v else dict_lookup key rest
  end.

(** [obj[key]] for a [str] key. *)
Definition getitem_str (obj : value) (key : string) : res value :=
  match obj with
  | VDict items =>
      match dict_lookup key items with
      | Some v => Ok v
      | None => Raise KeyError
      end
  | _ => Raise TypeError
  end.

(** [obj[i]] for an [int] index: lists and strings count negative indices
    from the end; a dict from JSON has no [int] key. *)
Definition index_of (len : nat) (i : Z) : option nat :=
  if (0 <=? i) && (i <? Z.of_nat len) then Some (Z.to_nat i)
  else if (- Z.of_nat len <=? i) && (i <? 0) then Some (Z.to_nat (Z.of_nat len + i))
  else None.

Definition getitem_int (obj : value) (i : Z) : res value :=
  match obj with
  | VList items =>
      match index_of (length items) i with
      | Some k => match items !! k with Some v => Ok v | None => Raise IndexError end
      | None => Raise IndexError
      end
  | VStr s =>
      match index_of (String.length s) i with
      | Some k => Ok (VStr (String.substring k 1 s))
      | None => Raise IndexError
      end
  | VDict _ => Raise KeyError
  | _ => Raise TypeError
  end.

(** [v != "OK"]-style comparison of a value with a string literal. *)
Definition ne_str (v : value) (lit : string) : bool :=
  match v with
  | VStr s => negb (String.eqb s lit)
  | _ => true
  end.

(** [bool] is a subclass of [int]: the integer an object stands for in
    arithmetic and in [range]. *)
Definition as_int (v : value) : option Z :=
  match v with
  | VInt n => Some n
  | VBool b => Some (Z.b2z b)
  | _ => None
  end.

(** ** Binary64 arithmetic *)

Definition prec : Z := 53.
Definition emax : Z := 1024.

(** [int / int]: CPython computes the correctly rounded (nearest, ties to
    even) binary64 value of the exact quotient, whatever the size of the
    operands, and raises [OverflowError] when it does not fit. *)

(** [floor (log2 (n / d))] for positive [n], [d]. *)
Definition quotient_exponent (n d : Z) : Z :=
  let l := Z.log2 n - Z.log2 d in
  let below := if 0 <=? l then n <? d * 2 ^ l else n * 2 ^ (- l) <? d in
  if below then l - 1 else l.

(** Nearest integer to [(q * d + r) / d], ties to even. *)
Definition round_half_even (q r d : Z) : Z :=
  if (d <? 2 * r) || ((2 * r =? d) && Z.odd q) then q + 1 else q.

Definition long_true_divide (a b : Z) : res spec_float :=
  if b =? 0 then Raise ZeroDivisionError
  else
    let s := xorb (a <? 0) (b <? 0) in
    let n := Z.abs a in
    let d := Z.abs b in
    if n =? 0 then Ok (S754_zero s)
    else
      let e := Z.max (quotient_exponent n d - (prec - 1)) (3 - emax - prec) in
      let num := if 0 <=? e then n else n * 2 ^ (- e) in
      let den := if 0 <=? e then d * 2 ^ e else d in
      let m := round_half_even (num / den) (num mod den) den in
      let '(m, e) := if m =? 2 ^ prec then (2 ^ (prec - 1), e + 1) else (m, e) in
      match m with
      | Zpos p =>
          if emax <? Z.log2 m + e + 1 then Raise OverflowError
          else Ok (S754_finite s p e)
      | _ => Ok (S754_zero s)
      end.

(** [float(n)] as used for mixed [int]/[float] arithmetic. *)
Definition float_of_int (n : Z) : res spec_float :=
  match binary_normalize prec emax n 0 false with
  | S754_infinity _ => Raise OverflowError
  | f => Ok f
  end.

(** [int(f)] for a float: truncation toward zero. *)
Definition int_of_float (f : spec_float) : res Z :=
  match f with
  | S754_zero _ => Ok 0
  | S754_finite s m e =>
      Ok (cond_Zopp s (if 0 <=? e then Zpos m * 2 ^ e else Zpos m / 2 ^ (- e)))
  | S754_infinity _ => Raise OverflowError
  | S754_nan => Raise ValueError
  end.

(** [v / d] for an integer constant [d]. *)
Definition truediv (v : value) (d : Z) : res spec_float :=
  match v with
  | VFloat f =>
      if d =? 0 then Raise ZeroDivisionError
      else fd ← float_of_int d; Ok (SFdiv prec emax f fd)
  | _ =>
      match as_int v with
      | Some n => long_true_divide n d
      | None => Raise TypeError
      end
  end.

(** The expression [int(v / d)] of the unit conversions. *)
Definition int_truediv (v : value) (d : Z) : res Z :=
  f ← truediv v d; int_of_float f.

(** [int(s)] for a [str]: surrounding whitespace, an optional sign, decimal
    digits, single underscores between digits (ASCII only). *)
Definition is_space (c : ascii) : bool :=
  let n := nat_of_ascii c in
  ((9 <=? n) && (n <=? 13) || (n =? 32))%nat.

Definition digit_of (c : ascii) : option Z :=
  let n := nat_of_ascii c in
  if ((48 <=? n) && (n <=? 57))%nat then Some (Z.of_nat n - 48) else None.

Fixpoint lstrip (cs : list ascii) : list ascii :=
  match cs with
  | c :: rest => if is_space c then lstrip rest else cs
  | [] => []
  end.

Definition strip (cs : list ascii) : list ascii :=
  lstrip (rev (lstrip (rev cs))).

Fixpoint parse_digits (acc : Z) (after_digit : bool) (cs : list ascii) : option Z :=
  match cs with
  | [] => if after_digit then Some acc else None
  | c :: rest =>
      match digit_of c with
      | Some k => parse_digits (10 * acc + k) true rest
      | None =>
          if Ascii.eqb c "_" && after_digit then parse_digits acc false rest
          else None
      end
  end.

Definition int_of_str (s : string) : res Z :=
  let parsed :=
    match strip (list_ascii_of_string s) with
    | c :: rest =>
        if Ascii.eqb c "-" then Z.opp <$> parse_digits 0 false rest
        else if Ascii.eqb c "+" then parse_digits 0 false rest
        else parse_digits 0 false (c :: rest)
    | [] => None
    end in
  match parsed with
  | Some n => Ok n
  | None => Raise ValueError
  end.

(** The builtin [int(v)]. *)
Definition py_int (v : value) : res Z :=
  match v with
  | VInt n => Ok n
  | VBool b => Ok (Z.b2z b)
  | VFloat f => int_of_float f
  | VStr s => int_of_str s
  | _ => Raise TypeError
  end.

(** [x + y] on values. *)
Definition py_add (x y : value) : res value :=
  match x, y with
  | VStr s, VStr t => Ok (VStr (s ++ t))
  | VList l, VList k => Ok (VList (l ++ k))
  | VFloat f, VFloat g => Ok (VFloat (SFadd prec emax f g))
  | VFloat f, _ =>
      match as_int y with
      | Some b => g ← float_of_int b; Ok (VFloat (SFadd prec emax f g))
      | None => Raise TypeError
      end
  | _, VFloat g =>
      match as_int x with
      | Some a => f ← float_of_int a; Ok (VFloat (SFadd prec emax f g))
      | None => Raise TypeError
      end
  | _, _ =>
      match as_int x, as_int y with
      | Some a, Some b => Ok (VInt (a + b))
      | _, _ => Raise TypeError
      end
  end.

(** ** Settings *)

Definition SAMPLE_INTERVAL : Z := 60.
Definition MAX_DATAPOINTS : nat := 30.

(** ** The monitor object *)

(** [class RubrikData]; [__init__] is [RubrikData_init]. *)
Record RubrikData := mkRubrikData {
  iops : list value;
  throughput : list Z;
  ingest : list Z;
  streams : list value;
  success_count : value;
  failure_count : value;
  running_count : value;
  total : Z;
  used : Z;
  available : Z;
  avg_growth_per_day : Z;
  ingested_yesterday : Z;
  ingested_today : Z;
  node_status : value
}.

Definition RubrikData_init : RubrikData :=
  {| iops := []; throughput := []; ingest := []; streams := [];
     success_count := VInt 0; failure_count := VInt 0; running_count := VInt 0;
     total := 0; used := 0; available := 0; avg_growth_per_day := 0;
     ingested_yesterday := 0; ingested_today := 0;
     node_status := VStr "ERR" |}.

(** Attribute assignments [rubrik_monitor.data.<field> = v]. *)
Definition set_success_count (v : value) (d : RubrikData) : RubrikData :=
  let '(mkRubrikData a b c e _ g h i j k l m n o) := d in
  mkRubrikData a b c e v g h i j k l m n o.
Definition set_failure_count (v : value) (d : RubrikData) : RubrikData :=
  let '(mkRubrikData a b c e f _ h i j k l m n o) := d in
  mkRubrikData a b c e f v h i j k l m n o.
Definition set_running_count (v : value) (d : RubrikData) : RubrikData :=
  let '(mkRubrikData a b c e f g _ i j k l m n o) := d in
  mkRubrikData a b c e f g v i j k l m n o.
Definition set_total (v : Z) (d : RubrikData) : RubrikData :=
  let '(mkRubrikData a b c e f g h _ j k l m n o) := d in
  mkRubrikData a b c e f g h v j k l m n o.
Definition set_used (v : Z) (d : RubrikData) : RubrikData :=
  let '(mkRubrikData a b c e f g h i _ k l m n o) := d in
  mkRubrikData a b c e f g h i v k l m n o.
Definition set_available (v : Z) (d : RubrikData) : RubrikData :=
  let '(mkRubrikData a b c e f g h i j _ l m n o) := d in
  mkRubrikData a b c e f g h i j v l m n o.
Definition set_avg_growth_per_day (v : Z) (d : RubrikData) : RubrikData :=
  let '(mkRubrikData a b c e f g h i j k _ m n o) := d in
  mkRubrikData a b c e f g h i j k v m n o.
Definition set_ingested_yesterday (v : Z) (d : RubrikData) : RubrikData :=
  let '(mkRubrikData a b c e f g h i j k l _ n o) := d in
  mkRubrikData a b c e f g h i j k l v n o.
Definition set_ingested_today (v : Z) (d : RubrikData) : RubrikData :=
  let '(mkRubrikData a b c e f g h i j k l m _ o) := d in
  mkRubrikData a b c e f g h i j k l m v o.
Definition set_node_status (v : value) (d : RubrikData) : RubrikData :=
  let '(mkRubrikData a b c e f g h i j k l m n _) := d in
  mkRubrikData a b c e f g h i j k l m n v.

(** A [requests.Session] object: an opaque handle. *)
Inductive Session := RequestsSession.

(** What [rubrik_monitor.json] holds: the empty string of [__init__], an
    error object [{"error": msg}], or [{"stats": data.__dict__}] as
    serialised at that moment. *)
Inductive published :=
  | PubEmpty
  | PubError (msg : string)
  | PubStats (d : RubrikData).

(** [class MonitorJSON]. *)
Record MonitorJSON := mkMonitorJSON {
  json : published;
  session : option Session;
  data : RubrikData;
  token : value
}.

Definition MonitorJSON_init : MonitorJSON :=
  {| json := PubEmpty; session := None; data := RubrikData_init; token := VNone |}.

(** ** The remote API *)

Record Response := mkResponse {
  status_code : Z;
  body : option value    (* [json.loads(r.text)], [None] when it raises *)
}.

Inductive reply :=
  | Raises (e : exn)         (* the request itself raises *)
  | Returns (r : Response).

Definition loads (r : Response) : res value :=
  match body r with
  | Some v => Ok v
  | None => Raise JSONDecodeError
  end.

(** ** get_rubrik_token *)

(** The exception classes named by the [except] clause around the login
    POST. *)
Definition login_caught (e : exn) : bool :=
  match e with
  | Timeout | ConnectionError | HTTPError => true
  | _ => false
  end.

Definition set_session (s : option Session) (m : MonitorJSON) : MonitorJSON :=
  {| json := json m; session := s; data := data m; token := token m |}.
Definition set_token (t : value) (m : MonitorJSON) : MonitorJSON :=
  {| json := json m; session := session m; data := data m; token := t |}.
Definition set_json (p : published) (m : MonitorJSON) : MonitorJSON :=
  {| json := p; session := session m; data := data m; token := token m |}.
Definition set_data (d : RubrikData) (m : MonitorJSON) : MonitorJSON :=
  {| json := json m; session := session m; data := d; token := token m |}.

(** Creates the session, posts the credentials and returns the token, or
    [None]; [login] is what the POST does.  The monitor comes back with its
    new session whether or not the function raises. *)
Definition get_rubrik_token (rubrik_monitor : MonitorJSON) (login : reply)
  : MonitorJSON * res value :=
  let rubrik_monitor := set_session (Some RequestsSession) rubrik_monitor in
  match login with
  | Raises e =>
      if login_caught e then (rubrik_monitor, Ok VNone)
      else (rubrik_monitor, Raise e)
  | Returns r =>
      (rubrik_monitor,
       result ← loads r;
       match getitem_str result "token" with
       | Ok t => Ok t
       | Raise KeyError =>
           (* logger.error("Not connected to Rubrik: " + result["message"]) *)
           msg ← getitem_str result "message";
           match msg with
           | VStr _ => Ok VNone
           | _ => Raise TypeError
           end
       | Raise e => Raise e
       end)
  end.

(** ** The statements of the try block *)

(** The subscript chains applied to [json.loads(r.text)]. *)

(** [json.loads(r.text)[key]] *)
Definition field (r : Response) (key : string) : res value :=
  j ← loads r; getitem_str j key.

(** [json.loads(r.text)[i]["stat"]] *)
Definition stat_at (r : Response) (i : Z) : res value :=
  j ← loads r; x ← getitem_int j i; getitem_str x "stat".

(** [json.loads(r.text)[group][key][0]["stat"]] *)
Definition io_stat (r : Response) (group key : string) : res value :=
  j ← loads r; a ← getitem_str j group; b ← getitem_str a key;
  c ← getitem_int b 0; getitem_str c "stat".

(** Statements that read and assign [rubrik_monitor.data]. *)
Definition M (A : Type) : Type := RubrikData → RubrikData * res A.

#[global] Instance M_ret : MRet M := fun A a d => (d, Ok a).
#[global] Instance M_bind : MBind M := fun A B f m d =>
  match m d with
  | (d', Ok a) => f a d'
  | (d', Raise e) => (d', Raise e)
  end.

Definition lift {A} (r : res A) : M A := fun d => (d, r).
Definition assign (f : RubrikData → RubrikData) : M unit := fun d => (f d, Ok tt).

(** The [for x in range(0, status_json["total"])] loop over the indices
    [xs] still to visit; the two evaluations of
    [status_json["data"][x]["status"]] give the same object. *)
Fixpoint node_status_loop (status_json : value) (xs : list nat)
    (system_status : value) : res value :=
  match xs with
  | [] => Ok system_status
  | x :: rest =>
      d ← getitem_str status_json "data";
      node ← getitem_int d (Z.of_nat x);
      s ← getitem_str node "status";
      if ne_str s "OK" then node_status_loop status_json rest s
      else node_status_loop status_json rest system_status
  end.

(** [range(0, stop)]: [stop] must be an integer. *)
Definition py_range (stop : value) : res (list nat) :=
  match as_int stop with
  | Some n => Ok (seq 0 (Z.to_nat n))
  | None => Raise TypeError
  end.

(** Lines 164-168: the node statuses folded into [system_status]. *)
Definition aggregate_node_status (status_json : value) : res value :=
  stop ← getitem_str status_json "total";
  xs ← py_range stop;
  node_status_loop status_json xs (VStr "OK").

Section Cycle.
(** The session and the replies of the appliance during one cycle. *)
Variable ses : option Session.
Variable srv : endpoint → reply.

(** [rubrik_monitor.session.get(RUBRIK_URL + path, ...)]. *)
Definition session_get (ep : endpoint) : res Response :=
  match ses with
  | None => Raise AttributeError
  | Some _ =>
      match srv ep with
      | Raises e => Raise e
      | Returns r => Ok r
      end
  end.

(** The GET followed by the status check that every query starts with. *)
Definition query (ep : endpoint) : res Response :=
  r ← session_get ep;
  if status_code r =? 200 then Ok r
  else Raise (RubrikNotConnectedException ep).

(** Summary Report *)
Definition summary_report : M unit :=
  r ← lift (query BackupJobsSummary);
  v ← lift (field r "successCount");
  assign (set_success_count v);;
  v ← lift (field r "failureCount");
  assign (set_failure_count v);;
  v ← lift (field r "runningCount");
  assign (set_running_count v).

(** Storage stats *)
Definition storage_stats : M unit :=
  r ← lift (query SystemStorage);
  n ← lift (v ← field r "total"; int_truediv v (1000 * 1000 * 1000));
  assign (set_total n);;
  n ← lift (v ← field r "available"; int_truediv v (1000 * 1000 * 1000));
  assign (set_available n).

(** Snapshot stats: the value arrives as a string. *)
Definition snapshot_stats : M unit :=
  r ← lift (query SnapshotStoragePhysical);
  n ← lift (v ← field r "value"; i ← py_int v;
            int_truediv (VInt i) (1000 * 1000 * 1000));
  assign (set_used n).

(** Average Storage Growth Per Day *)
Definition average_growth : M unit :=
  r ← lift (query AverageStorageGrowth);
  n ← lift (v ← field r "bytes"; int_truediv v (1000 * 1000 * 1000));
  assign (set_avg_growth_per_day n).

(** Physical Ingest per day *)
Definition ingest_per_day : M unit :=
  r ← lift (query PhysicalIngestPerDay);
  n ← lift (v ← stat_at r (-2); int_truediv v (1000 * 1000 * 1000));
  assign (set_ingested_yesterday n);;
  n ← lift (v ← stat_at r (-1); int_truediv v (1000 * 1000 * 1000));
  assign (set_ingested_today n).

(** Node Status *)
Definition cluster_node_status : M unit :=
  r ← lift (query ClusterNode);
  system_status ← lift (status_json ← loads r; aggregate_node_status status_json);
  assign (set_node_status system_status).

(** Current Streams *)
Definition current_streams : M value :=
  r ← lift (query StreamsCount);
  lift (field r "count").

(** IOPS/Throughput: [(iops_reads, iops_writes, throughput_reads,
    throughput_writes)], the throughputs already in megabytes. *)
Definition io_stats : M (value * value * Z * Z) :=
  r ← lift (query IoStats);
  lift (
    iops_reads ← io_stat r "iops" "readsPerSecond";
    iops_writes ← io_stat r "iops" "writesPerSecond";
    throughput_reads ← io_stat r "ioThroughput" "readBytePerSecond";
    throughput_writes ← io_stat r "ioThroughput" "writeBytePerSecond";
    throughput_reads ← int_truediv throughput_reads (1024 * 1024);
    throughput_writes ← int_truediv throughput_writes (1024 * 1024);
    Ok (iops_reads, iops_writes, throughput_reads, throughput_writes)).

(** PhysicalIngest (Live data), in megabytes. *)
Definition physical_ingest : M Z :=
  r ← lift (query PhysicalIngest);
  lift (v ← stat_at r 0; int_truediv v (1024 * 1024)).
End Cycle.

(** ** Saving the datapoints *)

Definition set_iops (l : list value) (d : RubrikData) : RubrikData :=
  let '(mkRubrikData _ b c e f g h i j k q m n o) := d in
  mkRubrikData l b c e f g h i j k q m n o.
Definition set_throughput (l : list Z) (d : RubrikData) : RubrikData :=
  let '(mkRubrikData a _ c e f g h i j k q m n o) := d in
  mkRubrikData a l c e f g h i j k q m n o.
Definition set_ingest (l : list Z) (d : RubrikData) : RubrikData :=
  let '(mkRubrikData a b _ e f g h i j k q m n o) := d in
  mkRubrikData a b l e f g h i j k q m n o.
Definition set_streams (l : list value) (d : RubrikData) : RubrikData :=
  let '(mkRubrikData a b c _ f g h i j k q m n o) := d in
  mkRubrikData a b c l f g h i j k q m n o.

(** [del l[0]]. *)
Definition del_first {A} (l : list A) : res (list A) :=
  match l with
  | [] => Raise IndexError
  | _ :: rest => Ok rest
  end.

(** [del (rubrik_monitor.data.<series>[0])] for a series read by [get] and
    written by [set]. *)
Definition del_oldest {A} (get : RubrikData → list A)
    (set : list A → RubrikData → RubrikData) : M unit := fun d =>
  match del_first (get d) with
  | Ok l => (set l d, Ok tt)
  | Raise e => (d, Raise e)
  end.

(** "If we already have the max number of datapoints in our list, delete
    the oldest item": the test reads the length of [iops] only. *)
Definition trim_datapoints : M unit := fun d =>
  if (MAX_DATAPOINTS <? length (iops d))%nat then
    (del_oldest iops set_iops;;
     del_oldest throughput set_throughput;;
     del_oldest ingest set_ingest;;
     del_oldest streams set_streams) d
  else (d, Ok tt).

(** "Save stat datapoints to our persistent monitor object", then the
    trim. *)
Definition save_datapoints (iops_reads iops_writes : value)
    (throughput_reads throughput_writes ingest_mb : Z) (streams_count : value)
  : M unit :=
  v ← lift (py_add iops_reads iops_writes);
  assign (λ d, set_iops (iops d ++ [v]) d);;
  assign (λ d, set_throughput (throughput d ++ [throughput_reads + throughput_writes]) d);;
  assign (λ d, set_ingest (ingest d ++ [ingest_mb]) d);;
  assign (λ d, set_streams (streams d ++ [streams_count]) d);;
  trim_datapoints.

(** What the save step does to one series, for a cap [cap]: append, then
    drop the oldest element when the series has grown past the cap. *)
Definition append_and_trim {A} (cap : nat) (series : list A) (v : A) : list A :=
  let series := series ++ [v] in
  if (cap <? length series)%nat then drop 1 series else series.

(** ** generate_json *)

(** Where the [try] block stopped. *)
Inductive stage :=
  | Query (ep : endpoint)
  | SaveDatapoints.

Inductive try_result :=
  | Completed
  | Failed (at_stage : stage) (e : exn).

(** Sequencing of the blocks of the [try] body; an exception is recorded
    with the block that raised it. *)
Definition block {A} (s : stage) (m : M A)
    (rest : A → RubrikData → RubrikData * try_result)
  : RubrikData → RubrikData * try_result := fun d =>
  match m d with
  | (d', Ok a) => rest a d'
  | (d', Raise e) => (d', Failed s e)
  end.

Definition try_block (ses : option Session) (srv : endpoint → reply)
  : RubrikData → RubrikData * try_result :=
  block (Query BackupJobsSummary) (summary_report ses srv) (λ _,
  block (Query SystemStorage) (storage_stats ses srv) (λ _,
  block (Query SnapshotStoragePhysical) (snapshot_stats ses srv) (λ _,
  block (Query AverageStorageGrowth) (average_growth ses srv) (λ _,
  block (Query PhysicalIngestPerDay) (ingest_per_day ses srv) (λ _,
  block (Query ClusterNode) (cluster_node_status ses srv) (λ _,
  block (Query StreamsCount) (current_streams ses srv) (λ streams_count,
  block (Query IoStats) (io_stats ses srv) (λ '(iops_reads, iops_writes,
                                                throughput_reads, throughput_writes),
  block (Query PhysicalIngest) (physical_ingest ses srv) (λ ingest_mb,
  block SaveDatapoints
    (save_datapoints iops_reads iops_writes throughput_reads throughput_writes
                     ingest_mb streams_count) (λ _ d,
  (d, Completed))))))))))).

(** How a call of [generate_json] ends. *)
Inductive outcome :=
  | Published                          (* the stats were published *)
  | LoginFailed                        (* no token: error object, early return *)
  | CycleFailed (s : stage) (e : exn)  (* the [except Exception] handler ran *)
  | Raised (e : exn).                  (* the exception reaches the caller *)

Definition returns_normally (o : outcome) : bool :=
  match o with
  | Raised _ => false
  | _ => true
  end.

(** The [try] statement with its handler.  After the save step the block
    only serialises the snapshot with [json.dumps] and logs it; the values
    of a snapshot all come out of [json.loads] and of arithmetic on them,
    and serialising them is taken not to raise. *)
Definition try_except (rubrik_monitor : MonitorJSON) (srv : endpoint → reply)
  : MonitorJSON * outcome :=
  match try_block (session rubrik_monitor) srv (data rubrik_monitor) with
  | (d, Completed) =>
      (set_json (PubStats d) (set_data d rubrik_monitor), Published)
  | (d, Failed s e) =>
      (set_session None
         (set_token VNone
            (set_json (PubError "Error getting data from Rubrik")
               (set_data d rubrik_monitor))),
       CycleFailed s e)
  end.

Definition generate_json (rubrik_monitor : MonitorJSON) (login : reply)
    (srv : endpoint → reply) : MonitorJSON * outcome :=
  if is_none (token rubrik_monitor) then
    match get_rubrik_token rubrik_monitor login with
    | (rubrik_monitor, Raise e) => (rubrik_monitor, Raised e)
    | (rubrik_monitor, Ok t) =>
        let rubrik_monitor := set_token t rubrik_monitor in
        if is_none t then
          (set_json (PubError "Error getting login token from Rubrik") rubrik_monitor,
           LoginFailed)
        else try_except rubrik_monitor srv
    end
  else try_except rubrik_monitor srv.

(** ** The polling loop of [__main__] *)

(** What the appliance does during one cycle. *)
Record cycle_input := mkCycle {
  login_reply : reply;
  server : endpoint → reply
}.

(** The [while True] loop over the cycles in [inputs]; it ends early when
    [generate_json] raises, which ends the process. *)
Fixpoint poll (inputs : list cycle_input) (monitor : MonitorJSON) : MonitorJSON :=
  match inputs with
  | [] => monitor
  | c :: rest =>
      match generate_json monitor (login_reply c) (server c) with
      | (monitor, Raised _) => monitor
      | (monitor, _) => poll rest monitor
      end
  end.

(** ** Vocabulary of the statements *)

#[global] Instance endpoint_eq_dec : EqDecision endpoint.
Proof. solve_decision. Defined.

(** The four streaming sequences of a snapshot. *)
Definition series (d : RubrikData) : list value * list Z * list Z * list value :=
  (iops d, throughput d, ingest d, streams d).

(** The ten scalar fields of a snapshot. *)
Definition scalars (d : RubrikData)
  : value * value * value * Z * Z * Z * Z * Z * Z * value :=
  (success_count d, failure_count d, running_count d, total d, used d,
   available d, avg_growth_per_day d, ingested_yesterday d, ingested_today d,
   node_status d).

(** The scalar fields that the block of an endpoint assigns. *)
Definition scalars_of_step (ep : endpoint) (d : RubrikData) : list value :=
  match ep with
  | BackupJobsSummary => [success_count d; failure_count d; running_count d]
  | SystemStorage => [VInt (total d); VInt (available d)]
  | SnapshotStoragePhysical => [VInt (used d)]
  | AverageStorageGrowth => [VInt (avg_growth_per_day d)]
  | PhysicalIngestPerDay => [VInt (ingested_yesterday d); VInt (ingested_today d)]
  | ClusterNode => [node_status d]
  | StreamsCount | IoStats | PhysicalIngest => []
  end.

(** The four sequences have one length, within the cap. *)
Definition window_ok (d : RubrikData) : Prop :=
  length (throughput d) = length (iops d) ∧
  length (ingest d) = length (iops d) ∧
  length (streams d) = length (iops d) ∧
  (length (iops d) ≤ MAX_DATAPOINTS)%nat.

(** The four sequences after a sample has been appended to each and, when
    [iops] has grown past the cap, the oldest element removed from each. *)
Definition window_saved (v : value) (tp ing : Z) (sc : value) (d : RubrikData)
  : list value * list Z * list Z * list value :=
  if (MAX_DATAPOINTS <? length (iops d ++ [v]))%nat then
    (drop 1 (iops d ++ [v]), drop 1 (throughput d ++ [tp]),
     drop 1 (ingest d ++ [ing]), drop 1 (streams d ++ [sc]))
  else
    (iops d ++ [v], throughput d ++ [tp], ingest d ++ [ing], streams d ++ [sc]).

(** A snapshot with its four sequences replaced. *)
Definition with_series (s : list value * list Z * list Z * list value)
    (d : RubrikData) : RubrikData :=
  mkRubrikData s.1.1.1 s.1.1.2 s.1.2 s.2
    (success_count d) (failure_count d) (running_count d) (total d) (used d)
    (available d) (avg_growth_per_day d) (ingested_yesterday d)
    (ingested_today d) (node_status d).

(** A statement leaves the observation [P] of the snapshot as it was,
    whether it completes or raises. *)
Definition preserves {A T} (P : RubrikData → T) (m : M A) : Prop :=
  ∀ d, P (m d).1 = P d.

(** The query block of an endpoint preserves [P]. *)
Definition step_preserves {T} (P : RubrikData → T) (ses : option Session)
    (srv : endpoint → reply) (ep : endpoint) : Prop :=
  match ep with
  | BackupJobsSummary => preserves P (summary_report ses srv)
  | SystemStorage => preserves P (storage_stats ses srv)
  | SnapshotStoragePhysical => preserves P (snapshot_stats ses srv)
  | AverageStorageGrowth => preserves P (average_growth ses srv)
  | PhysicalIngestPerDay => preserves P (ingest_per_day ses srv)
  | ClusterNode => preserves P (cluster_node_status ses srv)
  | StreamsCount => preserves P (current_streams ses srv)
  | IoStats => preserves P (io_stats ses srv)
  | PhysicalIngest => preserves P (physical_ingest ses srv)
  end.

(** Both or neither of session and token. *)
Definition paired (m : MonitorJSON) : Prop :=
  (session m = None ∧ token m = VNone) ∨ (session m ≠ None ∧ token m ≠ VNone).

(** A node entry and a node list as [/api/v1/cluster/me/node] reports
    them. *)
Definition node (status : string) : value :=
  VDict [("id", VStr "RVM000"); ("status", VStr status)].

Definition node_list (statuses : list string) : value :=
  VDict [("hasMore", VBool false);
         ("data", VList (node <$> statuses));
         ("total", VInt (Z.of_nat (length statuses)))].

Definition non_ok (s : string) : bool := negb (String.eqb s "OK").

(** The aggregate in the words of the specification: ["OK"] when every
    node reports ["OK"], else the status of the first node that does not. *)
Definition first_non_ok_status (statuses : list string) : string :=
  default "OK" (head (List.filter non_ok statuses)).

(** The status of the last node that does not report ["OK"]. *)
Definition last_non_ok_status (statuses : list string) : string :=
  default "OK" (last (List.filter non_ok statuses)).

(** What the loop leaves in [system_status] after the statuses [ss]. *)
Definition fold_status (acc : string) (ss : list string) : string :=
  fold_left (λ acc s, if non_ok s then s else acc) ss acc.

(** ** Sample replies of the appliance *)

Definition http_ok (v : value) : reply := Returns (mkResponse 200 (Some v)).
Definition http_error (code : Z) : reply := Returns (mkResponse code None).

Definition stat (n : Z) : value := VDict [("time", VStr "now"); ("stat", VInt n)].

Definition io_stats_body (iops_reads iops_writes read_bytes write_bytes : Z) : value :=
  VDict [("iops",
          VDict [("readsPerSecond", VList [stat iops_reads]);
                 ("writesPerSecond", VList [stat iops_writes])]);
         ("ioThroughput",
          VDict [("readBytePerSecond", VList [stat read_bytes]);
                 ("writeBytePerSecond", VList [stat write_bytes])])].

Definition sample_login : reply :=
  http_ok (VDict [("token", VStr "8de9d44f"); ("userId", VStr "a4c20000")]).

Definition sample_server (ep : endpoint) : reply :=
  match ep with
  | BackupJobsSummary =>
      http_ok (VDict [("successCount", VInt 10); ("failureCount", VInt 1);
                      ("runningCount", VInt 2)])
  | SystemStorage =>
      http_ok (VDict [("total", VInt 5000000000); ("used", VInt 4000000000);
                      ("available", VInt 2999999999)])
  | SnapshotStoragePhysical => http_ok (VDict [("value", VStr "1999999999")])
  | AverageStorageGrowth => http_ok (VDict [("bytes", VInt 123456789012)])
  | PhysicalIngestPerDay =>
      http_ok (VList [stat 1000000000; stat 2000000000; stat 3000000000])
  | ClusterNode => http_ok (node_list ["OK"; "OK"; "OK"])
  | StreamsCount => http_ok (VDict [("count", VInt 4)])
  | IoStats => http_ok (io_stats_body 100 50 2097152 524288)
  | PhysicalIngest => http_ok (VList [stat 3145728])
  end.

(** [srv] with the reply of one endpoint replaced. *)
Definition with_reply (ep : endpoint) (r : reply) (srv : endpoint → reply)
  : endpoint → reply :=
  fun ep' => if decide (ep' = ep) then r else srv ep'.

(** A monitor that already holds a session and a token. *)
Definition logged_in : MonitorJSON :=
  {| json := PubEmpty; session := Some RequestsSession;
     data := RubrikData_init; token := VStr "8de9d44f" |}.

(** ** Further vocabulary *)

(** The logins that [get_rubrik_token] answers with a token or [None]
    instead of raising: a transport error of one of the three classes it
    names, or a JSON object that has a ["token"], or else a ["message"] that
    is a string. *)
Definition login_answered (login : reply) : Prop :=
  match login with
  | Raises e => login_caught e = true
  | Returns r =>
      ∃ result, body r = Some (VDict result) ∧
        (is_Some (dict_lookup "token" result) ∨
         ∃ msg, dict_lookup "message" result = Some (VStr msg))
  end.

(** The outcomes of the cycles that the loop of [__main__] runs on
    [inputs], in order; the last one is the only one that can be
    [Raised]. *)
Fixpoint poll_outcomes (inputs : list cycle_input) (monitor : MonitorJSON)
  : list outcome :=
  match inputs with
  | [] => []
  | c :: rest =>
      match generate_json monitor (login_reply c) (server c) with
      | (_, Raised e) => [Raised e]
      | (monitor, o) => o :: poll_outcomes rest monitor
      end
  end.

(** The query block of [k], started on [d0], raises [e] and leaves [d']. *)
Definition step_raises (ses : option Session) (srv : endpoint → reply)
    (k : endpoint) (d0 d' : RubrikData) (e : exn) : Prop :=
  match k with
  | BackupJobsSummary => summary_report ses srv d0 = (d', Raise e)
  | SystemStorage => storage_stats ses srv d0 = (d', Raise e)
  | SnapshotStoragePhysical => snapshot_stats ses srv d0 = (d', Raise e)
  | AverageStorageGrowth => average_growth ses srv d0 = (d', Raise e)
  | PhysicalIngestPerDay => ingest_per_day ses srv d0 = (d', Raise e)
  | ClusterNode => cluster_node_status ses srv d0 = (d', Raise e)
  | StreamsCount => current_streams ses srv d0 = (d', Raise e)
  | IoStats => io_stats ses srv d0 = (d', Raise e)
  | PhysicalIngest => physical_ingest ses srv d0 = (d', Raise e)
  end.



(** * Properties *)

(** ** The embedding on concrete inputs *)

Example int_of_str_samples :
  int_of_str " 1_999_999 " = Ok 1999999 ∧ int_of_str "-12" = Ok (-12) ∧
  int_of_str "12.5" = Raise ValueError ∧ int_of_str "" = Raise ValueError.
Proof. repeat split. Qed.

Example getitem_samples :
  getitem_int (VList [VInt 1; VInt 2; VInt 3]) (-2) = Ok (VInt 2) ∧
  getitem_int (VList [VInt 1]) (-2) = Raise IndexError ∧
  getitem_str (VList [VInt 1]) "stat" = Raise TypeError ∧
  getitem_str (VDict [("stat", VInt 1)]) "count" = Raise KeyError.
Proof. repeat split. Qed.

(** One full cycle from the initial monitor, with the sample replies. *)
Example sample_cycle :
  let d := {| iops := [VInt 150]; throughput := [2]; ingest := [3];
              streams := [VInt 4];
              success_count := VInt 10; failure_count := VInt 1;
              running_count := VInt 2;
              total := 5; used := 1; available := 2; avg_growth_per_day := 123;
              ingested_yesterday := 2; ingested_today := 3;
              node_status := VStr "OK" |} in
  generate_json MonitorJSON_init sample_login sample_server
  = ({| json := PubStats d; session := Some RequestsSession; data := d;
        token := VStr "8de9d44f" |}, Published).
Proof. vm_compute. reflexivity. Qed.

(** A 500 on the third query: the error object is published, session and
    token are reset, and the next cycle logs in again. *)
Example sample_failed_cycle :
  let srv := with_reply SnapshotStoragePhysical (http_error 500) sample_server in
  let m1 := (generate_json MonitorJSON_init sample_login srv).1 in
  json m1 = PubError "Error getting data from Rubrik" ∧
  session m1 = None ∧ token m1 = VNone ∧
  (generate_json m1 sample_login sample_server).2 = Published ∧
  (generate_json m1 (Raises Timeout) sample_server).2 = LoginFailed.
Proof. vm_compute. repeat split. Qed.

(** ** Integer true division followed by truncation *)

(** Rounding the scaled quotient to the nearest integer does not reach the
    next multiple of [2^k] as long as [d < 2^(k+1)]: truncating the rounded
    quotient then gives the integer quotient. *)
Lemma round_half_even_floor (n d k : Z) :
  0 ≤ n → 0 < d → 0 ≤ k → d < 2 ^ (k + 1) →
  round_half_even (n * 2 ^ k / d) ((n * 2 ^ k) mod d) d / 2 ^ k = n / d.
Proof.
  intros Hn Hd Hk Hlt.
  assert (HP : 0 < 2 ^ k) by (apply Z.pow_pos_nonneg; lia).
  rewrite Z.pow_add_r, Z.pow_1_r in Hlt by lia.
  set (P := 2 ^ k) in *.
  pose proof (Z.div_mod n d ltac:(lia)) as Hnd.
  pose proof (Z.mod_pos_bound n d Hd) as Ht.
  set (q := n / d) in *. set (t := n mod d) in *.
  pose proof (Z.div_mod (n * P) d ltac:(lia)) as HnP.
  pose proof (Z.mod_pos_bound (n * P) d Hd) as Hr.
  set (m0 := n * P / d) in *. set (r := (n * P) mod d) in *.
  assert (Hlo : q * P <= m0) by nia.
  assert (Hhi : m0 <= q * P + (P - 1)) by nia.
  unfold round_half_even.
  destruct ((d <? 2 * r) || ((2 * r =? d) && Z.odd m0)) eqn:Hc.
  - assert (Hr2 : d <= 2 * r).
    { apply orb_true_iff in Hc as [Hc | Hc]; [lia |].
      apply andb_true_iff in Hc as [Hc _]. lia. }
    assert (m0 + 1 <= q * P + (P - 1)) by nia.
    symmetry. apply (Z.div_unique _ _ _ (m0 + 1 - q * P)); lia.
  - symmetry. apply (Z.div_unique _ _ _ (m0 - q * P)); lia.
Qed.

(** [int(n / d)] is [n // d] when the binary64 quotient keeps [k] fraction
    bits with [d < 2^(k+1)]. *)
Lemma int_truediv_floor (n d k : Z) :
  0 < n < 2 ^ 1000 → 0 < d → 0 < k ≤ 1074 →
  quotient_exponent n d = 52 - k → d < 2 ^ (k + 1) →
  int_truediv (VInt n) d = Ok (n / d).
Proof.
  intros Hn Hd Hk He Hlt.
  pose proof (round_half_even_floor n d k ltac:(lia) Hd ltac:(lia) Hlt) as Hfl.
  unfold int_truediv, truediv, as_int, long_true_divide.
  replace (d =? 0) with false by lia.
  replace (n <? 0) with false by lia.
  replace (d <? 0) with false by lia.
  rewrite (Z.abs_eq n), (Z.abs_eq d) by lia.
  replace (n =? 0) with false by lia.
  rewrite He. unfold prec, emax.
  replace (Z.max (52 - k - (53 - 1)) (3 - 1024 - 53)) with (- k) by lia.
  replace (0 <=? - k) with false by lia.
  rewrite Z.opp_involutive.
  set (m := round_half_even (n * 2 ^ k / d) ((n * 2 ^ k) mod d) d) in *.
  assert (HP : 0 < 2 ^ k) by (apply Z.pow_pos_nonneg; lia).
  assert (Hq : 0 <= n / d < 2 ^ 1000).
  { split; [apply Z.div_pos; lia |].
    apply Z.div_lt_upper_bound; nia. }
  destruct (m =? 2 ^ 53) eqn:Hm.
  - apply Z.eqb_eq in Hm. rewrite Hm in Hfl.
    change (2 ^ (53 - 1)) with 4503599627370496.
    replace (1024 <? Z.log2 4503599627370496 + (- k + 1) + 1) with false
      by (change (Z.log2 4503599627370496) with 52; lia).
    cbn [mbind res_bind int_of_float cond_Zopp]. f_equal.
    rewrite <- Hfl. destruct (0 <=? - k + 1) eqn:Hk1.
    + replace k with 1 by lia. reflexivity.
    + replace (2 ^ k) with (2 * 2 ^ (- (- k + 1))).
      * change (2 ^ 53) with (2 * 4503599627370496).
        rewrite Z.div_mul_cancel_l; [reflexivity | | lia].
        apply Z.pow_nonzero; lia.
      * rewrite <- Z.pow_succ_r by lia. f_equal. lia.
  - assert (Hm0 : 0 <= m).
    { unfold m, round_half_even.
      assert (0 <= n * 2 ^ k / d) by (apply Z.div_pos; nia).
      destruct (_ || _); lia. }
    destruct m as [|p|p] eqn:Em; [| |lia].
    + cbn [mbind res_bind int_of_float]. rewrite <- Hfl.
      now rewrite Z.div_0_l by lia.
    + assert (Hlog : Z.log2 (Z.pos p) < 1000 + k).
      { apply Z.log2_lt_pow2; [lia |].
        rewrite Z.pow_add_r by lia.
        pose proof (Z.div_mod (Z.pos p) (2 ^ k) ltac:(lia)) as Hdm.
        pose proof (Z.mod_pos_bound (Z.pos p) (2 ^ k) HP).
        rewrite Hfl in Hdm. nia. }
      replace (1024 <? Z.log2 (Z.pos p) + - k + 1) with false by lia.
      cbn [mbind res_bind int_of_float cond_Zopp].
      replace (0 <=? - k) with false by lia.
      rewrite Z.opp_involutive. now rewrite Hfl.
Qed.

Lemma quotient_exponent_range (n d : Z) :
  Z.log2 n - Z.log2 d - 1 ≤ quotient_exponent n d ≤ Z.log2 n - Z.log2 d.
Proof. unfold quotient_exponent. repeat destruct (_ : bool); lia. Qed.

Lemma bytes_to_gigabytes (n : Z) :
  0 ≤ n < 2 ^ 24 * 10 ^ 9 →
  int_truediv (VInt n) (1000 * 1000 * 1000) = Ok (n / 10 ^ 9).
Proof.
  intros Hn. change (1000 * 1000 * 1000) with 1000000000.
  change (10 ^ 9) with 1000000000 in *.
  change (2 ^ 24) with 16777216 in Hn.
  destruct (Z.eq_dec n 0) as [-> | Hn0]; [reflexivity |].
  assert (Hlog : 0 <= Z.log2 n < 54).
  { split; [apply Z.log2_nonneg |]. apply Z.log2_lt_pow2; lia. }
  pose proof (quotient_exponent_range n 1000000000) as Hqe.
  change (Z.log2 1000000000) with 29 in Hqe.
  assert (Hup : quotient_exponent n 1000000000 <= 23).
  { destruct (Z.eq_dec (Z.log2 n) 53) as [E | E]; [| lia].
    unfold quotient_exponent. rewrite E.
    change (Z.log2 1000000000) with 29.
    change (0 <=? 53 - 29) with true. change (2 ^ (53 - 29)) with 16777216.
    cbv iota. replace (n <? 1000000000 * 16777216) with true by lia. lia. }
  apply (int_truediv_floor n 1000000000 (52 - quotient_exponent n 1000000000));
    try lia.
  eapply Z.lt_le_trans with (2 ^ 30); [reflexivity |].
  apply Z.pow_le_mono_r; lia.
Qed.

Lemma byte_rate_to_megabytes (n : Z) :
  0 ≤ n < 2 ^ 53 →
  int_truediv (VInt n) (1024 * 1024) = Ok (n / 2 ^ 20).
Proof.
  intros Hn. change (1024 * 1024) with 1048576.
  change (2 ^ 53) with 9007199254740992 in Hn.
  change (2 ^ 20) with 1048576.
  destruct (Z.eq_dec n 0) as [-> | Hn0]; [reflexivity |].
  assert (Hlog : 0 <= Z.log2 n < 53).
  { split; [apply Z.log2_nonneg |]. apply Z.log2_lt_pow2; lia. }
  pose proof (quotient_exponent_range n 1048576) as Hqe.
  change (Z.log2 1048576) with 20 in Hqe.
  apply (int_truediv_floor n 1048576 (52 - quotient_exponent n 1048576));
    try lia.
  eapply Z.lt_le_trans with (2 ^ 21); [reflexivity |].
  apply Z.pow_le_mono_r; lia.
Qed.

(** The quotient computed by [long_true_divide] is the one that IEEE
    division of Stdlib's [SpecFloat] gives on the same operands; here at
    the two conversions of the specification and at the first byte count
    and byte rate whose quotient is rounded up to an integer. *)
Lemma long_true_divide_SFdiv_samples :
  Forall (λ '(a, b),
            long_true_divide (Z.pos a) (Z.pos b)
            = Ok (SFdiv prec emax (S754_finite false a 0) (S754_finite false b 0)))
    [(5000000000, 1000000000); (2097152, 1048576);
     (16777216999999999, 1000000000); (9007199255789567, 1048576);
     (1, 3); (123456789012, 1000000000)]%positive.
Proof. repeat constructor. Qed.

(** ** The sliding window *)

Section Window.
Context {A : Type}.
Implicit Types (series vs : list A) (v : A) (cap : nat).

Lemma fold_append_and_trim cap vs :
  fold_left (append_and_trim cap) vs [] = drop (length vs - cap) vs.
Proof.
  induction vs as [| v vs IH] using rev_ind; [reflexivity |].
  rewrite fold_left_app. cbn [fold_left]. rewrite IH.
  unfold append_and_trim.
  rewrite !length_app, length_drop. cbn [length].
  destruct (Nat.ltb_spec cap (length vs - (length vs - cap) + 1)) as [Hlt | Hge].
  - rewrite (drop_app _ [v] 1), (drop_app vs [v]), drop_drop, length_drop.
    f_equal; f_equal; lia.
  - replace (length vs - cap)%nat with 0%nat by lia.
    replace (length vs + 1 - cap)%nat with 0%nat by lia.
    reflexivity.
Qed.

(** C3. For every cap [C ≥ 1], [N] appends through append-and-trim to an
    empty series leave a series of length [min N C], made of the last
    [min N C] values appended, in the order they were appended. *)
Theorem append_and_trim_keeps_last (C : nat) (vs : list A) :
  (1 ≤ C)%nat →
  let series := fold_left (append_and_trim C) vs [] in
  length series = Nat.min (length vs) C ∧
  series = drop (length vs - Nat.min (length vs) C) vs.
Proof.
  intros _ series. subst series. rewrite fold_append_and_trim. split.
  - rewrite length_drop. lia.
  - f_equal. lia.
Qed.
End Window.

Lemma append_and_trim_keeps_last_witness :
  fold_left (append_and_trim 3) [10; 20; 30; 40; 50] [] = [30; 40; 50].
Proof.
  exact (proj2 (append_and_trim_keeps_last 3 [10; 20; 30; 40; 50] ltac:(lia))).
Defined.

(** ** Node status aggregation *)

Lemma index_of_lt (len k : nat) :
  (k < len)%nat → index_of len (Z.of_nat k) = Some k.
Proof.
  intros Hk. unfold index_of.
  replace (0 <=? Z.of_nat k) with true by lia.
  replace (Z.of_nat k <? Z.of_nat len) with true by lia.
  cbn. f_equal. lia.
Qed.

Lemma last_cons_default {A} (x : A) (l : list A) :
  last (x :: l) = Some (default x (last l)).
Proof.
  revert x. induction l as [| y l IH]; intros x; [reflexivity |].
  change (last (x :: y :: l)) with (last (y :: l)).
  rewrite IH. destruct l; reflexivity.
Qed.

Lemma fold_status_last (acc : string) (ss : list string) :
  fold_status acc ss = default acc (last (List.filter non_ok ss)).
Proof.
  revert acc. induction ss as [| s ss IH]; intros acc; [reflexivity |].
  unfold fold_status in *. cbn [fold_left List.filter].
  destruct (non_ok s); [| apply IH].
  rewrite IH, last_cons_default. reflexivity.
Qed.

Lemma node_status_loop_fold (status_json : value) (pre rest : list value)
    (ss : list string) (acc : string) :
  getitem_str status_json "data" = Ok (VList (pre ++ rest)) →
  Forall2 (λ nd s, getitem_str nd "status" = Ok (VStr s)) rest ss →
  node_status_loop status_json (seq (length pre) (length rest)) (VStr acc)
  = Ok (VStr (fold_status acc ss)).
Proof.
  intros Hdata Hall. revert pre acc Hdata.
  induction Hall as [| nd s rest ss Hnd Hall IH]; intros pre acc Hdata;
    [reflexivity |].
  cbn [length seq node_status_loop]. rewrite Hdata.
  cbn [mbind res_bind getitem_int].
  rewrite index_of_lt by (rewrite length_app; cbn; lia).
  rewrite list_lookup_middle by reflexivity.
  cbn [mbind res_bind]. rewrite Hnd. cbn [mbind res_bind]. cbn [ne_str]. fold (non_ok s).
  specialize (IH (pre ++ [nd])). rewrite length_app in IH. cbn [length] in IH.
  replace (S (length pre)) with (length pre + 1)%nat by lia.
  unfold fold_status. cbn [fold_left].
  destruct (non_ok s); apply IH; rewrite <- app_assoc; exact Hdata.
Qed.

Lemma last_non_ok_status_OK (ss : list string) :
  last_non_ok_status ss = "OK" ↔ Forall (λ s, s = "OK") ss.
Proof.
  unfold last_non_ok_status. split.
  - intros Hlast. apply Forall_forall. intros s Hs.
    destruct (last (List.filter non_ok ss)) as [x |] eqn:El.
    + apply last_Some_elem_of, list_elem_of_In, filter_In in El as [_ Hx].
      cbn in Hlast. subst x. discriminate.
    + apply last_None in El.
      destruct (non_ok s) eqn:Hn.
      * assert (Hin : In s (List.filter non_ok ss))
          by (apply filter_In; split; [apply list_elem_of_In, Hs | exact Hn]).
        rewrite El in Hin. destruct Hin.
      * unfold non_ok in Hn. apply negb_false_iff, String.eqb_eq in Hn.
        exact Hn.
  - intros Hall. replace (List.filter non_ok ss) with (@nil string); [reflexivity |].
    symmetry. induction Hall as [| s ss Hs _ IH]; [reflexivity |].
    cbn [List.filter]. subst s. exact IH.
Qed.

(** C4, as the code has it. For a node list whose [total] counts its
    [data] entries, each with a status string, the aggregated status is
    ["OK"] exactly when every node reports ["OK"]; otherwise it is the
    status of the last node, in iteration order, that does not report
    ["OK"]. *)
Theorem aggregate_node_status_last_non_ok (status_json : value)
    (nodes : list value) (statuses : list string) :
  getitem_str status_json "total" = Ok (VInt (Z.of_nat (length nodes))) →
  getitem_str status_json "data" = Ok (VList nodes) →
  Forall2 (λ nd s, getitem_str nd "status" = Ok (VStr s)) nodes statuses →
  aggregate_node_status status_json = Ok (VStr (last_non_ok_status statuses)) ∧
  (last_non_ok_status statuses = "OK" ↔ Forall (λ s, s = "OK") statuses).
Proof.
  intros Htotal Hdata Hall. split; [| apply last_non_ok_status_OK].
  unfold aggregate_node_status. rewrite Htotal.
  cbn [mbind res_bind py_range as_int]. rewrite Nat2Z.id.
  pose proof (node_status_loop_fold status_json [] nodes statuses "OK" Hdata Hall)
    as Hloop.
  cbn [length] in Hloop. rewrite Hloop, fold_status_last. reflexivity.
Qed.

Lemma node_list_statuses (statuses : list string) :
  Forall2 (λ nd s, getitem_str nd "status" = Ok (VStr s)) (node <$> statuses) statuses.
Proof. induction statuses; constructor; [reflexivity | assumption]. Qed.

Lemma aggregate_node_status_last_non_ok_witness :
  aggregate_node_status (node_list ["FAILED"; "OK"; "DEGRADED"; "OK"])
  = Ok (VStr "DEGRADED").
Proof.
  exact (proj1 (aggregate_node_status_last_non_ok
                  (node_list ["FAILED"; "OK"; "DEGRADED"; "OK"])
                  (node <$> ["FAILED"; "OK"; "DEGRADED"; "OK"])
                  ["FAILED"; "OK"; "DEGRADED"; "OK"]
                  eq_refl eq_refl (node_list_statuses _))).
Defined.

(** The statement of C4 in the words of the specification fails on the
    list [FAILED, DEGRADED]: the first node that is not ["OK"] reports
    ["FAILED"], the aggregate is ["DEGRADED"]. *)
Lemma aggregate_node_status_not_first_non_ok :
  first_non_ok_status ["FAILED"; "DEGRADED"] = "FAILED" ∧
  aggregate_node_status (node_list ["FAILED"; "DEGRADED"])
  ≠ Ok (VStr (first_non_ok_status ["FAILED"; "DEGRADED"])).
Proof. split; [reflexivity | discriminate]. Qed.

(** C5. The three node lists of the specification: [OK, OK, OK] gives
    ["OK"], [OK, DEGRADED, OK] gives ["DEGRADED"], and [FAILED, DEGRADED]
    gives ["DEGRADED"]. *)
Theorem aggregate_node_status_examples :
  aggregate_node_status (node_list ["OK"; "OK"; "OK"]) = Ok (VStr "OK") ∧
  aggregate_node_status (node_list ["OK"; "DEGRADED"; "OK"]) = Ok (VStr "DEGRADED") ∧
  aggregate_node_status (node_list ["FAILED"; "DEGRADED"]) = Ok (VStr "DEGRADED").
Proof. repeat split; reflexivity. Qed.

(** ** Reasoning about the statements of the try block *)

Lemma res_bind_Ok {A B} (m : res A) (f : A → res B) (b : B) :
  m ≫= f = Ok b → ∃ a, m = Ok a ∧ f a = Ok b.
Proof. destruct m as [a | e]; [eauto | discriminate]. Qed.

Lemma M_bind_Ok {A B} (m : M A) (f : A → M B) (d d' : RubrikData) (b : B) :
  (m ≫= f) d = (d', Ok b) → ∃ a d1, m d = (d1, Ok a) ∧ f a d1 = (d', Ok b).
Proof.
  unfold mbind, M_bind. destruct (m d) as [d1 [a | e]]; [eauto | discriminate].
Qed.

Lemma lift_Ok {A} (r : res A) (d d' : RubrikData) (a : A) :
  lift r d = (d', Ok a) → d' = d ∧ r = Ok a.
Proof. unfold lift. intros [= -> ->]. auto. Qed.

Lemma assign_Ok (f : RubrikData → RubrikData) (d d' : RubrikData) (u : unit) :
  assign f d = (d', Ok u) → d' = f d.
Proof. unfold assign. intros [= <- _]. reflexivity. Qed.

Lemma block_inv {A} (s : stage) (m : M A)
    (rest : A → RubrikData → RubrikData * try_result) (d d' : RubrikData)
    (r : try_result) :
  block s m rest d = (d', r) →
  (∃ e, m d = (d', Raise e) ∧ r = Failed s e) ∨
  (∃ a d1, m d = (d1, Ok a) ∧ rest a d1 = (d', r)).
Proof.
  unfold block. destruct (m d) as [d1 [a | e]].
  - right. eauto.
  - intros [= -> <-]. left. eauto.
Qed.

Section Preserves.
Context {T : Type} (P : RubrikData → T).

Lemma preserves_bind {A B} (m : M A) (f : A → M B) :
  preserves P m → (∀ a, preserves P (f a)) → preserves P (m ≫= f).
Proof.
  intros Hm Hf d. unfold mbind, M_bind.
  specialize (Hm d). destruct (m d) as [d1 [a | e]]; cbn in *.
  - rewrite Hf. exact Hm.
  - exact Hm.
Qed.

Lemma preserves_lift {A} (r : res A) : preserves P (lift r).
Proof. intros d. reflexivity. Qed.

Lemma preserves_assign (f : RubrikData → RubrikData) :
  (∀ d, P (f d) = P d) → preserves P (assign f).
Proof. intros Hf d. apply Hf. Qed.

Lemma preserves_eq {A} (m : M A) (d d' : RubrikData) (r : res A) :
  preserves P m → m d = (d', r) → P d' = P d.
Proof. intros Hm E. specialize (Hm d). rewrite E in Hm. exact Hm. Qed.
End Preserves.

(** Decomposes a query block into its statements; an assignment is left
    with the goal that its setter does not touch the observation. *)
Ltac preserves_steps :=
  repeat first
    [ apply preserves_lift
    | apply preserves_bind; [| intros ?]
    | apply preserves_assign; intros [] ].

Lemma queries_preserve_series ses srv ep : step_preserves series ses srv ep.
Proof.
  destruct ep; cbn [step_preserves];
    unfold summary_report, storage_stats, snapshot_stats, average_growth,
      ingest_per_day, cluster_node_status, current_streams, io_stats,
      physical_ingest;
    preserves_steps; reflexivity.
Qed.

Lemma queries_preserve_later_scalars ses srv (i j : endpoint) :
  i ≠ j → step_preserves (scalars_of_step j) ses srv i.
Proof.
  intros Hij.
  destruct i; cbn [step_preserves];
    unfold summary_report, storage_stats, snapshot_stats, average_growth,
      ingest_per_day, cluster_node_status, current_streams, io_stats,
      physical_ingest;
    preserves_steps; destruct j; try reflexivity; congruence.
Qed.

(** The save step: nothing is appended when the sum of the IOPS raises;
    otherwise the four sequences are appended to and trimmed together. *)
Lemma del_first_snoc {A} (l : list A) (x : A) :
  del_first (l ++ [x]) = Ok (drop 1 (l ++ [x])).
Proof. destruct l; reflexivity. Qed.

Lemma save_datapoints_spec ir iw tr tw ing sc (d : RubrikData) :
  save_datapoints ir iw tr tw ing sc d =
  match py_add ir iw with
  | Ok v => (with_series (window_saved v (tr + tw) ing sc d) d, Ok tt)
  | Raise e => (d, Raise e)
  end.
Proof.
  unfold save_datapoints. unfold mbind at 1. unfold M_bind, lift.
  destruct (py_add ir iw) as [v | e]; [| reflexivity].
  destruct d as [i t g s ? ? ? ? ? ? ? ? ? ?].
  unfold window_saved, trim_datapoints, with_series, mbind, M_bind, assign,
    del_oldest.
  cbn [iops throughput ingest streams set_iops set_throughput set_ingest
       set_streams fst snd].
  destruct (MAX_DATAPOINTS <? length (i ++ [v]))%nat; [| reflexivity].
  repeat (cbn [iops throughput ingest streams set_iops set_throughput
               set_ingest set_streams fst snd];
          rewrite del_first_snoc).
  reflexivity.
Qed.

(** ** The try block as a whole *)

Lemma query_Ok ses srv ep (r : Response) :
  query ses srv ep = Ok r →
  ses ≠ None ∧ srv ep = Returns r ∧ status_code r = 200.
Proof.
  unfold query, session_get. destruct ses; [| discriminate].
  destruct (srv ep) as [e | r0]; [discriminate |].
  cbn [mbind res_bind]. destruct (Z.eqb_spec (status_code r0) 200); [| discriminate].
  intros [= ->]. auto.
Qed.

Lemma window_saved_ext v tp ing sc (d1 d2 : RubrikData) :
  series d1 = series d2 →
  window_saved v tp ing sc d1 = window_saved v tp ing sc d2.
Proof. unfold series, window_saved. intros [= -> -> -> ->]. reflexivity. Qed.

Lemma series_with_series s (d : RubrikData) : series (with_series s d) = s.
Proof. destruct s as [[[? ?] ?] ?]. reflexivity. Qed.

(** Splits the sequence of blocks of [try_block] at the first one that
    raises. *)
Ltac split_blocks H :=
  unfold try_block in H;
  repeat
    (apply block_inv in H as [(? & ? & ?) | (? & ? & ? & H)];
     [| try match type of H with
            | context [match ?a with _ => _ end] =>
                is_var a; destruct a as [[[? ?] ?] ?]
            end]).

(** One equation [P d1 = P d0] for each block that ran. *)
Ltac frame_blocks Hp :=
  repeat match goal with
    | E : ?m ?d0 = (?d1, _) |- _ =>
        first
          [ pose proof (preserves_eq _ _ _ _ _ (Hp BackupJobsSummary) E)
          | pose proof (preserves_eq _ _ _ _ _ (Hp SystemStorage) E)
          | pose proof (preserves_eq _ _ _ _ _ (Hp SnapshotStoragePhysical) E)
          | pose proof (preserves_eq _ _ _ _ _ (Hp AverageStorageGrowth) E)
          | pose proof (preserves_eq _ _ _ _ _ (Hp PhysicalIngestPerDay) E)
          | pose proof (preserves_eq _ _ _ _ _ (Hp ClusterNode) E)
          | pose proof (preserves_eq _ _ _ _ _ (Hp StreamsCount) E)
          | pose proof (preserves_eq _ _ _ _ _ (Hp IoStats) E)
          | pose proof (preserves_eq _ _ _ _ _ (Hp PhysicalIngest) E) ];
        clear E
    end.

(** A cycle that fails leaves the four sequences as they were; a cycle
    that completes appends one sample to each and trims them together. *)
Lemma try_block_series ses srv (d d' : RubrikData) (r : try_result) :
  try_block ses srv d = (d', r) →
  match r with
  | Completed => ∃ v tp ing sc, series d' = window_saved v tp ing sc d
  | Failed _ _ => series d' = series d
  end.
Proof.
  intros H. pose proof (queries_preserve_series ses srv) as Hp.
  split_blocks H; subst.
  all: try (frame_blocks Hp; cbn; congruence).
  - (* the save step raises *)
    match goal with E : save_datapoints _ _ _ _ _ _ _ = _ |- _ =>
      rewrite save_datapoints_spec in E; destruct (py_add _ _);
      [discriminate |]; injection E as E _; subst d' end.
    frame_blocks Hp. cbn. congruence.
  - (* the save step completes *)
    injection H as E1 E2. subst d' r.
    match goal with E : save_datapoints _ _ _ _ _ _ _ = _ |- _ =>
      rewrite save_datapoints_spec in E; destruct (py_add _ _) as [v' |];
      [| discriminate]; injection E as E _ end.
    frame_blocks Hp. subst. rewrite series_with_series.
    do 4 eexists. apply window_saved_ext. congruence.
Qed.

(** A cycle that fails at the query of [k] preserves whatever the blocks
    up to [k] preserve. *)
Lemma try_block_failed_preserves {T} (P : RubrikData → T) ses srv
    (d d' : RubrikData) (k : endpoint) (e : exn) :
  (∀ i, (query_step i ≤ query_step k)%nat → step_preserves P ses srv i) →
  try_block ses srv d = (d', Failed (Query k) e) →
  P d' = P d.
Proof.
  intros Hp H. split_blocks H;
    try match goal with E : Failed _ _ = Failed _ _ |- _ =>
      injection E as ? ?; subst end;
    try discriminate.
  all: repeat match goal with
    | E : ?m ?d0 = (?d1, _) |- _ =>
        first
          [ pose proof (preserves_eq _ _ _ _ _ (Hp BackupJobsSummary ltac:(cbn; lia)) E)
          | pose proof (preserves_eq _ _ _ _ _ (Hp SystemStorage ltac:(cbn; lia)) E)
          | pose proof (preserves_eq _ _ _ _ _ (Hp SnapshotStoragePhysical ltac:(cbn; lia)) E)
          | pose proof (preserves_eq _ _ _ _ _ (Hp AverageStorageGrowth ltac:(cbn; lia)) E)
          | pose proof (preserves_eq _ _ _ _ _ (Hp PhysicalIngestPerDay ltac:(cbn; lia)) E)
          | pose proof (preserves_eq _ _ _ _ _ (Hp ClusterNode ltac:(cbn; lia)) E)
          | pose proof (preserves_eq _ _ _ _ _ (Hp StreamsCount ltac:(cbn; lia)) E)
          | pose proof (preserves_eq _ _ _ _ _ (Hp IoStats ltac:(cbn; lia)) E)
          | pose proof (preserves_eq _ _ _ _ _ (Hp PhysicalIngest ltac:(cbn; lia)) E) ];
        clear E
    end; congruence.
Qed.

(** Inverts the statements of a block that completed. *)
Ltac invert_block :=
  repeat match goal with
    | H : (_ ≫= _) _ = (_, Ok _) |- _ =>
        apply M_bind_Ok in H as (? & ? & ? & H)
    | H : lift _ _ = (_, Ok _) |- _ => apply lift_Ok in H as [? H]
    | H : assign _ _ = (_, Ok _) |- _ => apply assign_Ok in H
    | H : query _ _ _ = Ok _ |- _ => apply query_Ok in H as (_ & H & ?)
    end.

(** A cycle that completes: every query returned status 200, each scalar
    field holds the value computed from its response, and the sample
    computed from the last three responses was saved. *)
Lemma try_block_completed ses srv (d d' : RubrikData) :
  try_block ses srv d = (d', Completed) →
  ∃ rs : endpoint → Response,
    (∀ ep, srv ep = Returns (rs ep) ∧ status_code (rs ep) = 200) ∧
    field (rs BackupJobsSummary) "successCount" = Ok (success_count d') ∧
    field (rs BackupJobsSummary) "failureCount" = Ok (failure_count d') ∧
    field (rs BackupJobsSummary) "runningCount" = Ok (running_count d') ∧
    (v ← field (rs SystemStorage) "total"; int_truediv v (1000 * 1000 * 1000))
      = Ok (total d') ∧
    (v ← field (rs SystemStorage) "available"; int_truediv v (1000 * 1000 * 1000))
      = Ok (available d') ∧
    (v ← field (rs SnapshotStoragePhysical) "value"; i ← py_int v;
     int_truediv (VInt i) (1000 * 1000 * 1000)) = Ok (used d') ∧
    (v ← field (rs AverageStorageGrowth) "bytes"; int_truediv v (1000 * 1000 * 1000))
      = Ok (avg_growth_per_day d') ∧
    (v ← stat_at (rs PhysicalIngestPerDay) (-2); int_truediv v (1000 * 1000 * 1000))
      = Ok (ingested_yesterday d') ∧
    (v ← stat_at (rs PhysicalIngestPerDay) (-1); int_truediv v (1000 * 1000 * 1000))
      = Ok (ingested_today d') ∧
    (j ← loads (rs ClusterNode); aggregate_node_status j) = Ok (node_status d') ∧
    ∃ (sc ir iw : value) (tr tw ing : Z) (v : value),
      field (rs StreamsCount) "count" = Ok sc ∧
      io_stat (rs IoStats) "iops" "readsPerSecond" = Ok ir ∧
      io_stat (rs IoStats) "iops" "writesPerSecond" = Ok iw ∧
      (x ← io_stat (rs IoStats) "ioThroughput" "readBytePerSecond";
       int_truediv x (1024 * 1024)) = Ok tr ∧
      (x ← io_stat (rs IoStats) "ioThroughput" "writeBytePerSecond";
       int_truediv x (1024 * 1024)) = Ok tw ∧
      (x ← stat_at (rs PhysicalIngest) 0; int_truediv x (1024 * 1024)) = Ok ing ∧
      py_add ir iw = Ok v ∧
      series d' = window_saved v (tr + tw) ing sc d.
Proof.
  intros H. split_blocks H; try discriminate.
  injection H as H. subst.
  match goal with E : save_datapoints _ _ _ _ _ _ _ = _ |- _ =>
    rewrite save_datapoints_spec in E; destruct (py_add _ _) as [v' |] eqn:Hadd;
    [| discriminate]; injection E as E end.
  unfold summary_report, storage_stats, snapshot_stats, average_growth,
    ingest_per_day, cluster_node_status, current_streams, io_stats,
    physical_ingest in *.
  invert_block. subst.
  match goal with
  | H1 : srv BackupJobsSummary = Returns ?r1,
    H2 : srv SystemStorage = Returns ?r2,
    H3 : srv SnapshotStoragePhysical = Returns ?r3,
    H4 : srv AverageStorageGrowth = Returns ?r4,
    H5 : srv PhysicalIngestPerDay = Returns ?r5,
    H6 : srv ClusterNode = Returns ?r6,
    H7 : srv StreamsCount = Returns ?r7,
    H8 : srv IoStats = Returns ?r8,
    H9 : srv PhysicalIngest = Returns ?r9 |- _ =>
      exists (λ ep, match ep with
                    | BackupJobsSummary => r1 | SystemStorage => r2
                    | SnapshotStoragePhysical => r3 | AverageStorageGrowth => r4
                    | PhysicalIngestPerDay => r5 | ClusterNode => r6
                    | StreamsCount => r7 | IoStats => r8 | PhysicalIngest => r9
                    end)
  end.
  match goal with
  | H : io_stat _ "iops" "readsPerSecond" ≫= _ = Ok _ |- _ =>
      apply res_bind_Ok in H as (ir & Hir & H);
      apply res_bind_Ok in H as (iw & Hiw & H);
      apply res_bind_Ok in H as (rd & Hrd & H);
      apply res_bind_Ok in H as (wr & Hwr & H);
      apply res_bind_Ok in H as (tr & Htr & H);
      apply res_bind_Ok in H as (tw & Htw & H);
      injection H as -> -> -> ->
  end.
  destruct d.
  split; [intros []; auto |].
  repeat (split; [assumption |]).
  do 7 eexists. repeat (split; [eassumption |]).
  rewrite Hrd, Hwr. cbn [mbind res_bind].
  repeat (split; [eassumption |]).
  rewrite series_with_series. apply window_saved_ext. reflexivity.
Qed.

(** ** One call of generate_json *)

Lemma get_rubrik_token_monitor (m : MonitorJSON) (login : reply) :
  (get_rubrik_token m login).1 = set_session (Some RequestsSession) m.
Proof. destruct login as [e | r]; cbn; [destruct (login_caught e) |]; reflexivity. Qed.

(** The try block that a call runs, if it gets as far. *)
Lemma generate_json_try_block (m m' : MonitorJSON) login srv (o : outcome) :
  generate_json m login srv = (m', o) →
  match o with
  | Published =>
      ∃ ses, try_block ses srv (data m) = (data m', Completed) ∧
             json m' = PubStats (data m')
  | CycleFailed s e =>
      ∃ ses, try_block ses srv (data m) = (data m', Failed s e)
  | LoginFailed | Raised _ => data m' = data m
  end.
Proof.
  unfold generate_json, try_except.
  pose proof (get_rubrik_token_monitor m login) as Hm.
  destruct (is_none (token m)).
  - destruct (get_rubrik_token m login) as [m1 [t | e]]; cbn in Hm; subst m1.
    + destruct (is_none t).
      * intros [= <- <-]. reflexivity.
      * cbn [session data set_token set_session].
        destruct (try_block _ srv (data m)) as [d [| s e]] eqn:E;
          intros [= <- <-]; eexists; cbn; eauto.
    + intros [= <- <-]. reflexivity.
  - destruct (try_block _ srv (data m)) as [d [| s e]] eqn:E;
      intros [= <- <-]; eexists; cbn; eauto.
Qed.

Lemma try_block_no_session srv (d : RubrikData) :
  try_block None srv d = (d, Failed (Query BackupJobsSummary) AttributeError).
Proof. reflexivity. Qed.

(** C7. For every query [k] of the documented order, a cycle that fails
    at query [k] leaves the four streaming sequences [iops], [throughput],
    [ingest] and [streams] exactly as they were before the cycle. *)
Theorem failed_query_keeps_series (m m' : MonitorJSON) (login : reply)
    (srv : endpoint → reply) (k : endpoint) (e : exn) :
  generate_json m login srv = (m', CycleFailed (Query k) e) →
  iops (data m') = iops (data m) ∧
  throughput (data m') = throughput (data m) ∧
  ingest (data m') = ingest (data m) ∧
  streams (data m') = streams (data m).
Proof.
  intros H. apply generate_json_try_block in H as [ses H].
  apply try_block_series in H. unfold series in H.
  injection H as -> -> -> ->. auto.
Qed.

Lemma failed_query_keeps_series_witness :
  let m := (generate_json MonitorJSON_init sample_login sample_server).1 in
  let srv := with_reply SnapshotStoragePhysical (http_error 500) sample_server in
  let m' := (generate_json m sample_login srv).1 in
  iops (data m') = iops (data m) ∧
  throughput (data m') = throughput (data m) ∧
  ingest (data m') = ingest (data m) ∧
  streams (data m') = streams (data m).
Proof.
  intros m srv m'.
  apply (failed_query_keeps_series m m' sample_login srv SnapshotStoragePhysical
           (RubrikNotConnectedException SnapshotStoragePhysical)).
  vm_compute. reflexivity.
Defined.


(** C1 fails as stated: with the third query answering 500, the cycle
    fails and the scalars assigned by the first two queries have changed. *)
Lemma failed_cycle_changes_scalars :
  let srv := with_reply SnapshotStoragePhysical (http_error 500) sample_server in
  (generate_json logged_in sample_login srv).2
  = CycleFailed (Query SnapshotStoragePhysical)
      (RubrikNotConnectedException SnapshotStoragePhysical) ∧
  scalars (data (generate_json logged_in sample_login srv).1)
  ≠ scalars (data logged_in).
Proof. vm_compute. split; [reflexivity | discriminate]. Qed.

(** A query whose request fails, by raising or by a status other than
    200, assigns nothing. *)
Lemma failed_request_raises ses srv (k : endpoint) :
  (∀ r, srv k = Returns r → status_code r ≠ 200) →
  ∃ e, query ses srv k = Raise e.
Proof.
  intros Hk. unfold query, session_get. destruct ses; [| eauto].
  destruct (srv k) as [e | r] eqn:E; [eauto |].
  cbn [mbind res_bind]. specialize (Hk r eq_refl).
  destruct (Z.eqb_spec (status_code r) 200); [contradiction | eauto].
Qed.

Lemma failed_request_preserves {T} (P : RubrikData → T) ses srv (k : endpoint) :
  (∀ r, srv k = Returns r → status_code r ≠ 200) →
  step_preserves P ses srv k.
Proof.
  intros Hk. destruct (failed_request_raises ses srv k Hk) as [e He].
  destruct k; cbn [step_preserves]; intros d;
    unfold summary_report, storage_stats, snapshot_stats, average_growth,
      ingest_per_day, cluster_node_status, current_streams, io_stats,
      physical_ingest, mbind, M_bind, lift;
    rewrite He; reflexivity.
Qed.

(** C1, as the code has it. A cycle that fails at query [k] leaves
    unchanged every scalar field assigned by a query that comes after [k]
    in the documented order, and, when it is the request of [k] that fails
    (it raises, or its status is not 200), the fields of [k] as well; the
    fields of the earlier queries have been assigned already and are not
    rolled back. *)
Theorem failed_query_keeps_later_scalars (m m' : MonitorJSON) (login : reply)
    (srv : endpoint → reply) (k : endpoint) (e : exn) :
  generate_json m login srv = (m', CycleFailed (Query k) e) →
  (∀ j, (query_step k < query_step j)%nat →
        scalars_of_step j (data m') = scalars_of_step j (data m)) ∧
  ((∀ r, srv k = Returns r → status_code r ≠ 200) →
   scalars_of_step k (data m') = scalars_of_step k (data m)).
Proof.
  intros H. apply generate_json_try_block in H as [ses H]. split.
  - intros j Hkj.
    apply (try_block_failed_preserves (scalars_of_step j) ses srv _ _ k e);
      [| exact H].
    intros i Hik. apply queries_preserve_later_scalars.
    intros ->. lia.
  - intros Hk.
    apply (try_block_failed_preserves (scalars_of_step k) ses srv _ _ k e);
      [| exact H].
    intros i Hik. destruct (decide (i = k)) as [-> | Hne].
    + apply failed_request_preserves, Hk.
    + apply queries_preserve_later_scalars, Hne.
Qed.

Lemma failed_query_keeps_later_scalars_witness :
  let srv := with_reply SnapshotStoragePhysical (http_error 500) sample_server in
  let m' := (generate_json logged_in sample_login srv).1 in
  (∀ j, (query_step SnapshotStoragePhysical < query_step j)%nat →
        scalars_of_step j (data m') = scalars_of_step j (data logged_in)) ∧
  scalars_of_step SnapshotStoragePhysical (data m')
  = scalars_of_step SnapshotStoragePhysical (data logged_in).
Proof.
  intros srv m'.
  destruct (failed_query_keeps_later_scalars logged_in m' sample_login srv
              SnapshotStoragePhysical
              (RubrikNotConnectedException SnapshotStoragePhysical))
    as [Hlater Hown].
  - vm_compute. reflexivity.
  - split; [exact Hlater |]. apply Hown.
    intros r [= <-]. discriminate.
Defined.

(** ** The window invariant along the polling loop *)

Lemma window_ok_series (d d' : RubrikData) :
  series d' = series d → window_ok d → window_ok d'.
Proof. unfold series, window_ok. intros [= -> -> -> ->]. auto. Qed.

Lemma window_ok_saved v tp ing sc (d d' : RubrikData) :
  series d' = window_saved v tp ing sc d → window_ok d → window_ok d'.
Proof.
  unfold series, window_saved, window_ok, MAX_DATAPOINTS.
  intros Hs (Ht & Hg & Hst & Hcap).
  destruct (Nat.ltb_spec 30 (length (iops d ++ [v])));
    injection Hs as -> -> -> ->;
    rewrite ?length_drop, !length_app in *; cbn [length] in *; lia.
Qed.



Lemma generate_json_window_ok (m : MonitorJSON) login srv :
  window_ok (data m) → window_ok (data (generate_json m login srv).1).
Proof.
  intros Hok.
  destruct (generate_json m login srv) as [m' o] eqn:E. cbn [fst].
  apply generate_json_try_block in E.
  destruct o as [| | s e | e].
  - destruct E as (ses & E & _). apply try_block_series in E as (v & tp & ing & sc & E).
    exact (window_ok_saved _ _ _ _ _ _ E Hok).
  - rewrite E. exact Hok.
  - destruct E as (ses & E). apply try_block_series in E.
    exact (window_ok_series _ _ E Hok).
  - rewrite E. exact Hok.
Qed.

Lemma poll_window_ok (inputs : list cycle_input) (m : MonitorJSON) :
  window_ok (data m) → window_ok (data (poll inputs m)).
Proof.
  revert m. induction inputs as [| c rest IH]; intros m Hok; [exact Hok |].
  cbn [poll].
  pose proof (generate_json_window_ok m (login_reply c) (server c) Hok) as Hstep.
  destruct (generate_json m (login_reply c) (server c)) as [m' o].
  cbn [fst] in Hstep. destruct o; auto.
Qed.

(** C9. After every polling cycle, successful or failed, the four
    streaming sequences have the same length, and that length is at most
    the configured maximum of 30; the save step appends to the four
    sequences and removes the oldest element of all four on a test of the
    length of [iops] alone. *)
Theorem window_invariant :
  (∀ inputs : list cycle_input,
     let d := data (poll inputs MonitorJSON_init) in
     length (throughput d) = length (iops d) ∧
     length (ingest d) = length (iops d) ∧
     length (streams d) = length (iops d) ∧
     (length (iops d) ≤ 30)%nat) ∧
  (∀ (d : RubrikData) ir iw tr tw ing sc v,
     py_add ir iw = Ok v →
     series (save_datapoints ir iw tr tw ing sc d).1 =
     if (30 <? length (iops d ++ [v]))%nat then
       (drop 1 (iops d ++ [v]), drop 1 (throughput d ++ [tr + tw]),
        drop 1 (ingest d ++ [ing]), drop 1 (streams d ++ [sc]))
     else
       (iops d ++ [v], throughput d ++ [tr + tw], ingest d ++ [ing],
        streams d ++ [sc])).
Proof.
  split.
  - intros inputs. apply (poll_window_ok inputs MonitorJSON_init).
    repeat split. cbn. unfold MAX_DATAPOINTS. lia.
  - intros d ir iw tr tw ing sc v Hadd.
    rewrite save_datapoints_spec, Hadd. cbn [fst].
    apply series_with_series.
Qed.

Lemma window_invariant_witness :
  (let d := data (poll (replicate 40 (mkCycle sample_login sample_server))
                    MonitorJSON_init) in
   length (throughput d) = length (iops d) ∧
   length (ingest d) = length (iops d) ∧
   length (streams d) = length (iops d) ∧
   (length (iops d) ≤ 30)%nat) ∧
  series (save_datapoints (VInt 1) (VInt 2) 3 4 5 (VInt 6) RubrikData_init).1
  = ([VInt 3], [7], [5], [VInt 6]).
Proof.
  split.
  - exact (proj1 window_invariant
             (replicate 40 (mkCycle sample_login sample_server))).
  - exact (proj2 window_invariant RubrikData_init (VInt 1) (VInt 2) 3 4 5
             (VInt 6) (VInt 3) eq_refl).
Defined.

(** ** Session and token *)

(** C2 fails as stated: after a login that times out the monitor holds
    the session that was created for the POST, and no token. *)
Lemma failed_login_leaves_session :
  let m' := (generate_json MonitorJSON_init (Raises Timeout) sample_server).1 in
  session m' = Some RequestsSession ∧ token m' = VNone ∧ ¬ paired m'.
Proof.
  vm_compute. repeat split; try reflexivity.
  intros [[H _] | [_ H]]; [discriminate | apply H; reflexivity].
Qed.

(** C2, as the code has it. After every call a held token comes with a
    session: after a published cycle both are present, after the handler
    of a failed cycle both are absent, and after a login that fails or
    raises the token is absent while the session created for the login
    remains. *)
Theorem session_token_after_cycle (m m' : MonitorJSON) (login : reply)
    (srv : endpoint → reply) (o : outcome) :
  generate_json m login srv = (m', o) →
  (token m' ≠ VNone → session m' ≠ None) ∧
  match o with
  | Published => session m' ≠ None ∧ token m' ≠ VNone
  | CycleFailed _ _ => session m' = None ∧ token m' = VNone
  | LoginFailed | Raised _ => session m' = Some RequestsSession ∧ token m' = VNone
  end.
Proof.
  assert (Htry : ∀ m0 m1 o1, is_none (token m0) = false →
            try_except m0 srv = (m1, o1) →
            match o1 with
            | Published => session m1 ≠ None ∧ token m1 ≠ VNone
            | CycleFailed _ _ => session m1 = None ∧ token m1 = VNone
            | LoginFailed | Raised _ => False
            end).
  { intros m0 m1 o1 Htok. unfold try_except.
    destruct (session m0) as [s |] eqn:Es.
    - destruct (try_block (Some s) srv (data m0)) as [d [| st e]];
        intros [= <- <-]; cbn; [| auto].
      rewrite Es. split; [discriminate |].
      intros Ht. rewrite Ht in Htok. discriminate.
    - rewrite try_block_no_session. intros [= <- <-]. cbn. auto. }
  assert (Hmain : generate_json m login srv = (m', o) →
            match o with
            | Published => session m' ≠ None ∧ token m' ≠ VNone
            | CycleFailed _ _ => session m' = None ∧ token m' = VNone
            | LoginFailed | Raised _ =>
                session m' = Some RequestsSession ∧ token m' = VNone
            end).
  { unfold generate_json.
    pose proof (get_rubrik_token_monitor m login) as Hm.
    destruct (is_none (token m)) eqn:Htok.
    - destruct (get_rubrik_token m login) as [m1 [t | e]]; cbn in Hm; subst m1.
      + destruct (is_none t) eqn:Ht.
        * intros [= <- <-]. cbn. destruct t; try discriminate. auto.
        * intros H. apply Htry in H; [| exact Ht].
          destruct o; try exact H; destruct H.
      + intros [= <- <-]. cbn. destruct (token m); try discriminate. auto.
    - intros H. apply Htry in H; [| exact Htok].
      destruct o; try exact H; destruct H. }
  intros H. specialize (Hmain H). split; [| exact Hmain].
  destruct o; destruct Hmain as [Hs Ht]; intros Hne; congruence.
Qed.

Lemma session_token_after_cycle_witness :
  let m' := (generate_json logged_in sample_login
               (with_reply IoStats (Raises ConnectionError) sample_server)).1 in
  session m' = None ∧ token m' = VNone.
Proof.
  intros m'.
  refine (proj2 (session_token_after_cycle logged_in m' sample_login
                   (with_reply IoStats (Raises ConnectionError) sample_server)
                   (CycleFailed (Query IoStats) ConnectionError) _)).
  vm_compute. reflexivity.
Defined.

(** ** Exceptions that leave generate_json *)

(** Once a token is at hand, whatever the appliance does afterwards, the
    call returns normally. *)
Lemma try_except_returns (m : MonitorJSON) srv :
  returns_normally (try_except m srv).2 = true.
Proof.
  unfold try_except. destruct (try_block _ srv (data m)) as [d [| s e]];
    reflexivity.
Qed.

Lemma generate_json_returns (m : MonitorJSON) login srv :
  (is_none (token m) = true → ∃ t, (get_rubrik_token m login).2 = Ok t) →
  returns_normally (generate_json m login srv).2 = true.
Proof.
  intros Hlogin. unfold generate_json.
  destruct (is_none (token m)); [| apply try_except_returns].
  destruct (Hlogin eq_refl) as [t Ht].
  destruct (get_rubrik_token m login) as [m1 r]. cbn in Ht. subst r.
  destruct (is_none t); [reflexivity | apply try_except_returns].
Qed.

(** The logins that [get_rubrik_token] survives: a transport error of one
    of the three classes it names, a body with a ["token"], and a body
    without one whose ["message"] is a string. *)
Lemma get_rubrik_token_returns (m : MonitorJSON) (login : reply) :
  match login with
  | Raises e => login_caught e = true
  | Returns r =>
      ∃ result, body r = Some (VDict result) ∧
        (is_Some (dict_lookup "token" result) ∨
         ∃ msg, dict_lookup "message" result = Some (VStr msg))
  end →
  ∃ t, (get_rubrik_token m login).2 = Ok t.
Proof.
  destruct login as [e | r]; cbn.
  - intros ->. eauto.
  - intros (result & Hbody & Hcase). unfold loads. rewrite Hbody.
    cbn [mbind res_bind getitem_str].
    destruct (dict_lookup "token" result) as [t |] eqn:Etok; [eauto |].
    destruct Hcase as [[t Ht] | [msg Hmsg]]; [discriminate |].
    rewrite Hmsg. cbn. eauto.
Qed.

(** C6 fails on the code. With no token held, a login response whose body
    is not JSON makes [json.loads] raise in [get_rubrik_token], outside
    every [try]: the exception leaves [generate_json] and no error object
    is published.  The same happens when the body is a JSON object with
    neither ["token"] nor ["message"]. *)
Theorem login_body_exception_propagates (srv : endpoint → reply) :
  generate_json MonitorJSON_init (http_error 502) srv
  = (set_session (Some RequestsSession) MonitorJSON_init, Raised JSONDecodeError) ∧
  generate_json MonitorJSON_init (http_ok (VDict [])) srv
  = (set_session (Some RequestsSession) MonitorJSON_init, Raised KeyError).
Proof. split; reflexivity. Qed.

(** ** Unit conversions and the samples of a published cycle *)

(** C8 fails as stated: a byte count of 16777216999999999 is published as
    16777217 gigabytes, one more than its integer quotient by [10^9],
    because the quotient is rounded to a float before it is truncated. *)
Lemma gigabytes_not_truncated_above_2_24 :
  let body := VDict [("total", VInt 16777216999999999); ("available", VInt 0)] in
  let srv := with_reply SystemStorage (http_ok body) sample_server in
  let '(m', o) := generate_json logged_in sample_login srv in
  o = Published ∧
  total (data m') = 16777217 ∧
  total (data m') ≠ 16777216999999999 / 10 ^ 9.
Proof. vm_compute. repeat split; discriminate. Qed.

(** C8, as the code has it. Non-negative integer byte counts below
    [2^24 * 10^9] are converted to gigabytes by truncating integer division
    by [10^9], and non-negative integer byte rates below [2^53] to
    megabytes by truncating integer division by [2^20]; 5_000_000_000
    bytes give 5 and 2_097_152 bytes per second give 2.  In a published
    cycle this is the value of [total], [available], [used],
    [avg_growth_per_day], [ingested_yesterday] and [ingested_today], and of
    the throughput and ingest samples. *)
Theorem unit_conversions_truncate :
  (∀ n, 0 ≤ n < 2 ^ 24 * 10 ^ 9 →
        int_truediv (VInt n) (1000 * 1000 * 1000) = Ok (n / 10 ^ 9)) ∧
  (∀ n, 0 ≤ n < 2 ^ 53 →
        int_truediv (VInt n) (1024 * 1024) = Ok (n / 2 ^ 20)) ∧
  int_truediv (VInt 5000000000) (1000 * 1000 * 1000) = Ok 5 ∧
  int_truediv (VInt 2097152) (1024 * 1024) = Ok 2 ∧
  (∀ (m m' : MonitorJSON) login srv (rs : endpoint → Response),
     generate_json m login srv = (m', Published) →
     (∀ ep, srv ep = Returns (rs ep)) →
     (∀ n, field (rs SystemStorage) "total" = Ok (VInt n) →
           0 ≤ n < 2 ^ 24 * 10 ^ 9 → total (data m') = n / 10 ^ 9) ∧
     (∀ n, field (rs SystemStorage) "available" = Ok (VInt n) →
           0 ≤ n < 2 ^ 24 * 10 ^ 9 → available (data m') = n / 10 ^ 9) ∧
     (∀ v n, field (rs SnapshotStoragePhysical) "value" = Ok v →
             py_int v = Ok n →
             0 ≤ n < 2 ^ 24 * 10 ^ 9 → used (data m') = n / 10 ^ 9) ∧
     (∀ n, field (rs AverageStorageGrowth) "bytes" = Ok (VInt n) →
           0 ≤ n < 2 ^ 24 * 10 ^ 9 → avg_growth_per_day (data m') = n / 10 ^ 9) ∧
     (∀ n, stat_at (rs PhysicalIngestPerDay) (-2) = Ok (VInt n) →
           0 ≤ n < 2 ^ 24 * 10 ^ 9 → ingested_yesterday (data m') = n / 10 ^ 9) ∧
     (∀ n, stat_at (rs PhysicalIngestPerDay) (-1) = Ok (VInt n) →
           0 ≤ n < 2 ^ 24 * 10 ^ 9 → ingested_today (data m') = n / 10 ^ 9) ∧
     (∀ rd wr n,
        io_stat (rs IoStats) "ioThroughput" "readBytePerSecond" = Ok (VInt rd) →
        io_stat (rs IoStats) "ioThroughput" "writeBytePerSecond" = Ok (VInt wr) →
        stat_at (rs PhysicalIngest) 0 = Ok (VInt n) →
        0 ≤ rd < 2 ^ 53 → 0 ≤ wr < 2 ^ 53 → 0 ≤ n < 2 ^ 53 →
        ∃ v sc, series (data m')
                = window_saved v (rd / 2 ^ 20 + wr / 2 ^ 20) (n / 2 ^ 20) sc (data m))).
Proof.
  split; [exact bytes_to_gigabytes |].
  split; [exact byte_rate_to_megabytes |].
  split; [reflexivity |]. split; [reflexivity |].
  intros m m' login srv rs H Hrs.
  apply generate_json_try_block in H as (ses & H & _).
  apply try_block_completed in H
    as (rs' & Hrs' & _ & _ & _ & Htotal & Havail & Hused & Hgrowth & Hyest
        & Htoday & _ & sc & ir & iw & tr & tw & ing & v & _ & _ & _
        & Htr & Htw & Hing & _ & Hseries).
  assert (Heq : ∀ ep, rs' ep = rs ep).
  { intros ep. destruct (Hrs' ep) as [Hep _]. rewrite Hrs in Hep. congruence. }
  rewrite !Heq in *. clear Hrs' Heq rs'.
  repeat split.
  - intros n Hn Hr. rewrite Hn in Htotal. cbn [mbind res_bind] in Htotal.
    rewrite bytes_to_gigabytes in Htotal by exact Hr. congruence.
  - intros n Hn Hr. rewrite Hn in Havail. cbn [mbind res_bind] in Havail.
    rewrite bytes_to_gigabytes in Havail by exact Hr. congruence.
  - intros v0 n Hv Hn Hr. rewrite Hv in Hused. cbn [mbind res_bind] in Hused.
    rewrite Hn in Hused. cbn [mbind res_bind] in Hused.
    rewrite bytes_to_gigabytes in Hused by exact Hr. congruence.
  - intros n Hn Hr. rewrite Hn in Hgrowth. cbn [mbind res_bind] in Hgrowth.
    rewrite bytes_to_gigabytes in Hgrowth by exact Hr. congruence.
  - intros n Hn Hr. rewrite Hn in Hyest. cbn [mbind res_bind] in Hyest.
    rewrite bytes_to_gigabytes in Hyest by exact Hr. congruence.
  - intros n Hn Hr. rewrite Hn in Htoday. cbn [mbind res_bind] in Htoday.
    rewrite bytes_to_gigabytes in Htoday by exact Hr. congruence.
  - intros rd wr n Hrd Hwr Hn Hr1 Hr2 Hr3.
    rewrite Hrd in Htr. rewrite Hwr in Htw. rewrite Hn in Hing.
    cbn [mbind res_bind] in Htr, Htw, Hing.
    rewrite byte_rate_to_megabytes in Htr, Htw, Hing by assumption.
    injection Htr as <-. injection Htw as <-. injection Hing as <-.
    eauto.
Qed.

Lemma unit_conversions_truncate_witness :
  int_truediv (VInt 4999999999) (1000 * 1000 * 1000) = Ok (4999999999 / 10 ^ 9) ∧
  int_truediv (VInt 1048575) (1024 * 1024) = Ok (1048575 / 2 ^ 20) ∧
  (let m' := (generate_json logged_in sample_login sample_server).1 in
   total (data m') = 5000000000 / 10 ^ 9).
Proof.
  split; [| split].
  - apply (proj1 unit_conversions_truncate). lia.
  - apply (proj1 (proj2 unit_conversions_truncate)). lia.
  - intros m'.
    refine (proj1 (proj2 (proj2 (proj2 (proj2 unit_conversions_truncate)))
                     logged_in m' sample_login sample_server
                     (λ ep, match sample_server ep with
                            | Returns r => r
                            | Raises _ => mkResponse 0 None
                            end) _ _) 5000000000 _ _).
    + vm_compute. reflexivity.
    + intros []; reflexivity.
    + reflexivity.
    + lia.
Defined.

(** C10 fails as stated: a read rate of 2^53 + 2^20 - 1 bytes per second
    gives the throughput sample 8589934593, one more than the sum of the
    two integer quotients by [2^20]. *)
Lemma throughput_not_truncated_above_2_53 :
  let srv := with_reply IoStats (http_ok (io_stats_body 100 50 9007199255789567 0))
               sample_server in
  let '(m', o) := generate_json logged_in sample_login srv in
  o = Published ∧
  throughput (data m') = [8589934593] ∧
  9007199255789567 / 2 ^ 20 + 0 / 2 ^ 20 = 8589934592.
Proof. vm_compute. repeat split. Qed.

(** C10, as the code has it. In a published cycle whose read and write
    byte rates are integers in [0, 2^53), the throughput sample that is
    appended is the sum of the two rates each truncated to megabytes on its
    own, which is the truncation of their sum or one less; the IOPS sample
    is the plain Python sum of the read and write IOPS, for integers their
    integer sum, with no conversion. *)
Theorem throughput_and_iops_samples (m m' : MonitorJSON) (login : reply)
    (srv : endpoint → reply) (r : Response) (ir iw : value) (rd wr : Z) :
  generate_json m login srv = (m', Published) →
  srv IoStats = Returns r →
  io_stat r "iops" "readsPerSecond" = Ok ir →
  io_stat r "iops" "writesPerSecond" = Ok iw →
  io_stat r "ioThroughput" "readBytePerSecond" = Ok (VInt rd) →
  io_stat r "ioThroughput" "writeBytePerSecond" = Ok (VInt wr) →
  0 ≤ rd < 2 ^ 53 → 0 ≤ wr < 2 ^ 53 →
  (∃ v ing sc,
     py_add ir iw = Ok v ∧
     (∀ a b, ir = VInt a → iw = VInt b → v = VInt (a + b)) ∧
     series (data m')
     = window_saved v (rd / 2 ^ 20 + wr / 2 ^ 20) ing sc (data m)) ∧
  0 ≤ (rd + wr) / 2 ^ 20 - (rd / 2 ^ 20 + wr / 2 ^ 20) ≤ 1.
Proof.
  intros H Hsrv Hir Hiw Hrd Hwr Hr1 Hr2. split.
  - apply generate_json_try_block in H as (ses & H & _).
    apply try_block_completed in H
      as (rs & Hrs & _ & _ & _ & _ & _ & _ & _ & _ & _ & _
          & sc & ir' & iw' & tr & tw & ing & v & _ & Hir' & Hiw'
          & Htr & Htw & _ & Hadd & Hseries).
    destruct (Hrs IoStats) as [Hio _]. rewrite Hsrv in Hio.
    injection Hio as Hio. subst r.
    rewrite Hir in Hir'. rewrite Hiw in Hiw'.
    injection Hir' as <-. injection Hiw' as <-.
    rewrite Hrd in Htr. rewrite Hwr in Htw. cbn [mbind res_bind] in Htr, Htw.
    rewrite byte_rate_to_megabytes in Htr, Htw by assumption.
    injection Htr as <-. injection Htw as <-.
    exists v, ing, sc. split; [exact Hadd |]. split; [| exact Hseries].
    intros a b -> ->. cbn in Hadd. congruence.
  - change (2 ^ 20) with 1048576.
    pose proof (Z.div_mod rd 1048576 ltac:(lia)).
    pose proof (Z.div_mod wr 1048576 ltac:(lia)).
    pose proof (Z.div_mod (rd + wr) 1048576 ltac:(lia)).
    pose proof (Z.mod_pos_bound rd 1048576 ltac:(lia)).
    pose proof (Z.mod_pos_bound wr 1048576 ltac:(lia)).
    pose proof (Z.mod_pos_bound (rd + wr) 1048576 ltac:(lia)).
    lia.
Qed.

Lemma throughput_and_iops_samples_witness :
  let srv := with_reply IoStats (http_ok (io_stats_body 100 50 524288 524288))
               sample_server in
  let m' := (generate_json logged_in sample_login srv).1 in
  (∃ v ing sc,
     py_add (VInt 100) (VInt 50) = Ok v ∧
     (∀ a b, VInt 100 = VInt a → VInt 50 = VInt b → v = VInt (a + b)) ∧
     series (data m')
     = window_saved v (524288 / 2 ^ 20 + 524288 / 2 ^ 20) ing sc (data logged_in)) ∧
  0 ≤ (524288 + 524288) / 2 ^ 20 - (524288 / 2 ^ 20 + 524288 / 2 ^ 20) ≤ 1.
Proof.
  intros srv m'.
  apply (throughput_and_iops_samples logged_in m' sample_login srv
           (mkResponse 200 (Some (io_stats_body 100 50 524288 524288)))).
  - vm_compute. reflexivity.
  - reflexivity.
  - reflexivity.
  - reflexivity.
  - reflexivity.
  - reflexivity.
  - lia.
  - lia.
Defined.

(** * Further properties of the code *)

(** ** The paths through generate_json *)

Lemma get_rubrik_token_result (m n : MonitorJSON) (login : reply) :
  (get_rubrik_token m login).2 = (get_rubrik_token n login).2.
Proof. destruct login as [e | r]; cbn; [destruct (login_caught e) |]; reflexivity. Qed.

Lemma is_none_spec (v : value) : is_none v = true ↔ v = VNone.
Proof. destruct v; cbn; split; congruence. Qed.

Lemma is_none_false (v : value) : is_none v = false ↔ v ≠ VNone.
Proof. destruct v; cbn; split; congruence. Qed.

(** The monitor that a call leaves, path by path. *)
Lemma generate_json_cases (m m' : MonitorJSON) login srv (o : outcome) :
  generate_json m login srv = (m', o) →
  match o with
  | Published =>
      ∃ ses t,
        m' = mkMonitorJSON (PubStats (data m')) ses (data m') t ∧
        t ≠ VNone ∧
        try_block ses srv (data m) = (data m', Completed) ∧
        (if is_none (token m)
         then ses = Some RequestsSession ∧ (get_rubrik_token m login).2 = Ok t
         else ses = session m ∧ t = token m)
  | CycleFailed s e =>
      m' = mkMonitorJSON (PubError "Error getting data from Rubrik") None
             (data m') VNone ∧
      ∃ ses, try_block ses srv (data m) = (data m', Failed s e) ∧
        (if is_none (token m) then ses = Some RequestsSession
         else ses = session m)
  | LoginFailed =>
      m' = mkMonitorJSON (PubError "Error getting login token from Rubrik")
             (Some RequestsSession) (data m) VNone ∧
      token m = VNone ∧ (get_rubrik_token m login).2 = Ok VNone
  | Raised e =>
      m' = set_session (Some RequestsSession) m ∧
      token m = VNone ∧ (get_rubrik_token m login).2 = Raise e
  end.
Proof.
  unfold generate_json, try_except.
  pose proof (get_rubrik_token_monitor m login) as Hm.
  destruct (is_none (token m)) eqn:Htok.
  - apply is_none_spec in Htok.
    destruct (get_rubrik_token m login) as [m1 [t | e]]; cbn in Hm; subst m1.
    + destruct (is_none t) eqn:Ht.
      * apply is_none_spec in Ht. subst t. intros [= <- <-]. auto.
      * apply is_none_false in Ht.
        cbn [session data set_token set_session].
        destruct (try_block _ srv (data m)) as [d [| s e]] eqn:E;
          intros [= <- <-]; cbn.
        -- exists (Some RequestsSession), t. auto.
        -- split; [reflexivity |]. eauto.
    + intros [= <- <-]. auto.
  - apply is_none_false in Htok.
    destruct (try_block _ srv (data m)) as [d [| s e]] eqn:E;
      intros [= <- <-]; cbn.
    + exists (session m), (token m). auto.
    + split; [reflexivity |]. eauto.
Qed.

(** Without a token the session that the monitor holds plays no part. *)
Lemma generate_json_no_token (m n : MonitorJSON) login srv :
  token m = VNone → token n = VNone → json m = json n → data m = data n →
  generate_json m login srv = generate_json n login srv.
Proof.
  intros Hm Hn Hj Hd. unfold generate_json. rewrite Hm, Hn. cbn [is_none].
  pose proof (get_rubrik_token_monitor m login) as Em.
  pose proof (get_rubrik_token_monitor n login) as En.
  pose proof (get_rubrik_token_result m n login) as Er.
  destruct (get_rubrik_token m login) as [m1 r1].
  destruct (get_rubrik_token n login) as [n1 r2].
  cbn in Em, En, Er. subst m1 n1 r2.
  assert (Heq : set_session (Some RequestsSession) m
                = set_session (Some RequestsSession) n).
  { unfold set_session. rewrite Hm, Hn, Hj, Hd. reflexivity. }
  rewrite Heq. reflexivity.
Qed.

(** X1. After a published cycle the token is reused: the next call does
    not log in, so what the login endpoint would answer has no effect on
    it. *)
Theorem published_cycle_skips_next_login (m m1 : MonitorJSON)
    (login1 : reply) (srv1 : endpoint → reply) :
  generate_json m login1 srv1 = (m1, Published) →
  ∀ login2 login2' srv2,
    generate_json m1 login2 srv2 = generate_json m1 login2' srv2.
Proof.
  intros H login2 login2' srv2.
  apply generate_json_cases in H as (ses & t & -> & Ht & _).
  unfold generate_json. cbn [token].
  apply is_none_false in Ht. rewrite Ht. reflexivity.
Qed.

Lemma published_cycle_skips_next_login_witness :
  let m1 := (generate_json MonitorJSON_init sample_login sample_server).1 in
  generate_json m1 (Raises Timeout) sample_server
  = generate_json m1 (http_error 502) sample_server.
Proof.
  intros m1.
  apply (published_cycle_skips_next_login MonitorJSON_init m1 sample_login
           sample_server).
  vm_compute. reflexivity.
Defined.

(** X2. After a failed cycle or a failed login the next call starts from
    scratch: it behaves as on a monitor that holds the same data and
    payload and neither session nor token.  The session left behind by a
    failed login is never used for a request. *)
Theorem failed_call_forces_fresh_login (m m1 : MonitorJSON) (login : reply)
    (srv : endpoint → reply) (o : outcome) :
  generate_json m login srv = (m1, o) →
  o ≠ Published → returns_normally o = true →
  ∀ login2 srv2,
    generate_json m1 login2 srv2
    = generate_json (mkMonitorJSON (json m1) None (data m1) VNone) login2 srv2.
Proof.
  intros H Hnp Hret login2 srv2. apply generate_json_cases in H.
  destruct o as [| | s e | e]; [congruence | | | discriminate].
  - destruct H as (-> & _). apply generate_json_no_token; reflexivity.
  - destruct H as (-> & _). reflexivity.
Qed.

Lemma failed_call_forces_fresh_login_witness :
  let m1 := (generate_json MonitorJSON_init (Raises Timeout) sample_server).1 in
  generate_json m1 sample_login sample_server
  = generate_json (mkMonitorJSON (json m1) None (data m1) VNone)
      sample_login sample_server.
Proof.
  intros m1.
  apply (failed_call_forces_fresh_login MonitorJSON_init m1 (Raises Timeout)
           sample_server LoginFailed).
  - vm_compute. reflexivity.
  - discriminate.
  - reflexivity.
Defined.

(** X3. What a consumer reads in [rubrik_monitor.json] after a call tells
    how the call ended: the stats of the monitor's own data after a
    published cycle, one error object for a failed login and another for a
    failed cycle, and the payload of before, untouched, when the call
    raises. *)
Theorem payload_reflects_outcome (m m' : MonitorJSON) (login : reply)
    (srv : endpoint → reply) (o : outcome) :
  generate_json m login srv = (m', o) →
  json m' =
  match o with
  | Published => PubStats (data m')
  | LoginFailed => PubError "Error getting login token from Rubrik"
  | CycleFailed _ _ => PubError "Error getting data from Rubrik"
  | Raised _ => json m
  end.
Proof.
  intros H. apply generate_json_cases in H.
  destruct o as [| | s e | e].
  - destruct H as (ses & t & -> & _). reflexivity.
  - destruct H as (-> & _). reflexivity.
  - destruct H as (-> & _). reflexivity.
  - destruct H as (-> & _). reflexivity.
Qed.

Lemma payload_reflects_outcome_witness :
  let m := (generate_json MonitorJSON_init sample_login sample_server).1 in
  let m' := (generate_json m sample_login
               (with_reply IoStats (http_error 503) sample_server)).1 in
  json m' = PubError "Error getting data from Rubrik".
Proof.
  intros m m'.
  apply (payload_reflects_outcome m m' sample_login
           (with_reply IoStats (http_error 503) sample_server)
           (CycleFailed (Query IoStats) (RubrikNotConnectedException IoStats))).
  vm_compute. reflexivity.
Defined.

(** X4. A call that finds a token, or whose login is answered, returns
    normally whatever the nine endpoints do: the only exceptions that leave
    [generate_json] come out of the login. *)
Theorem generate_json_returns_normally (m : MonitorJSON) (login : reply)
    (srv : endpoint → reply) :
  token m ≠ VNone ∨ login_answered login →
  returns_normally (generate_json m login srv).2 = true.
Proof.
  intros H. apply generate_json_returns. intros Hnone.
  apply is_none_spec in Hnone. destruct H as [H | H]; [contradiction |].
  apply get_rubrik_token_returns, H.
Qed.

Lemma generate_json_returns_normally_witness :
  returns_normally
    (generate_json logged_in (http_error 502) (λ _, Raises ValueError)).2 = true.
Proof.
  apply generate_json_returns_normally. left. discriminate.
Defined.

(** ** The polling loop *)

(** X5. As long as every login is answered, the loop of [__main__] never
    ends: it runs every cycle it is given, and each of them returns
    normally, whatever the nine endpoints reply. *)
Theorem poll_runs_every_cycle (inputs : list cycle_input) (m : MonitorJSON) :
  Forall (λ c, login_answered (login_reply c)) inputs →
  length (poll_outcomes inputs m) = length inputs ∧
  Forall (λ o, returns_normally o = true) (poll_outcomes inputs m).
Proof.
  intros Hall. revert m.
  induction Hall as [| c rest Hc Hall IH]; intros m; [split; constructor |].
  cbn [poll_outcomes].
  pose proof (generate_json_returns m (login_reply c) (server c)
                (λ _, get_rubrik_token_returns m _ Hc)) as Hret.
  destruct (generate_json m (login_reply c) (server c)) as [m1 o].
  cbn [snd] in Hret. destruct (IH m1) as [IHlen IHall].
  destruct o; try discriminate; cbn [length]; split; auto.
Qed.

Lemma poll_runs_every_cycle_witness :
  let inputs := [mkCycle (Raises Timeout) sample_server;
                 mkCycle sample_login (λ _, http_error 500);
                 mkCycle sample_login sample_server] in
  length (poll_outcomes inputs MonitorJSON_init) = length inputs ∧
  Forall (λ o, returns_normally o = true) (poll_outcomes inputs MonitorJSON_init).
Proof.
  intros inputs. apply poll_runs_every_cycle.
  repeat constructor.
  - eexists. split; [reflexivity |]. left. eexists. reflexivity.
  - eexists. split; [reflexivity |]. left. eexists. reflexivity.
Defined.

Lemma generate_json_stats_current (m : MonitorJSON) login srv :
  (∀ d, json m = PubStats d → d = data m) →
  ∀ d, json (generate_json m login srv).1 = PubStats d →
       d = data (generate_json m login srv).1.
Proof.
  intros Hinv d.
  destruct (generate_json m login srv) as [m' o] eqn:E. cbn [fst].
  apply generate_json_cases in E. destruct o as [| | s e | e].
  - destruct E as (ses & t & -> & _). cbn. congruence.
  - destruct E as (-> & _). discriminate.
  - destruct E as (-> & _). discriminate.
  - destruct E as (-> & _). cbn. apply Hinv.
Qed.

(** X6. Whenever the payload of the monitor is a stats object, it is the
    serialisation of the monitor's data as they are now: the scalars that a
    failed cycle has half-assigned are never behind a visible stats object,
    because the failure replaces the payload by an error object. *)
Theorem published_stats_are_current (inputs : list cycle_input) (d : RubrikData) :
  json (poll inputs MonitorJSON_init) = PubStats d →
  d = data (poll inputs MonitorJSON_init).
Proof.
  assert (Hgen : ∀ m, (∀ d, json m = PubStats d → d = data m) →
                      ∀ d, json (poll inputs m) = PubStats d →
                           d = data (poll inputs m)).
  { induction inputs as [| c rest IH]; intros m Hinv; [exact Hinv |].
    cbn [poll].
    pose proof (generate_json_stats_current m (login_reply c) (server c) Hinv)
      as Hstep.
    destruct (generate_json m (login_reply c) (server c)) as [m1 o].
    cbn [fst] in Hstep. destruct o; auto. }
  apply Hgen. intros d0 H. discriminate.
Qed.

Lemma published_stats_are_current_witness :
  let inputs := [mkCycle sample_login (with_reply IoStats (http_error 500) sample_server);
                 mkCycle sample_login sample_server] in
  {| iops := [VInt 150]; throughput := [2]; ingest := [3]; streams := [VInt 4];
     success_count := VInt 10; failure_count := VInt 1; running_count := VInt 2;
     total := 5; used := 1; available := 2; avg_growth_per_day := 123;
     ingested_yesterday := 2; ingested_today := 3; node_status := VStr "OK" |}
  = data (poll inputs MonitorJSON_init).
Proof.
  intros inputs. apply (published_stats_are_current inputs).
  vm_compute. reflexivity.
Defined.

(** ** The window over many cycles *)









(** ** What a cycle reads of the replies *)

Lemma query_ext ses (srv srv' : endpoint → reply) (ep : endpoint) :
  srv' ep = srv ep → query ses srv' ep = query ses srv ep.
Proof. intros H. unfold query, session_get. rewrite H. reflexivity. Qed.

(** A query block reads no reply but that of its own endpoint. *)
Lemma block_reads_own_reply ses (srv srv' : endpoint → reply) (ep : endpoint) :
  srv' ep = srv ep →
  match ep with
  | BackupJobsSummary => summary_report ses srv' = summary_report ses srv
  | SystemStorage => storage_stats ses srv' = storage_stats ses srv
  | SnapshotStoragePhysical => snapshot_stats ses srv' = snapshot_stats ses srv
  | AverageStorageGrowth => average_growth ses srv' = average_growth ses srv
  | PhysicalIngestPerDay => ingest_per_day ses srv' = ingest_per_day ses srv
  | ClusterNode => cluster_node_status ses srv' = cluster_node_status ses srv
  | StreamsCount => current_streams ses srv' = current_streams ses srv
  | IoStats => io_stats ses srv' = io_stats ses srv
  | PhysicalIngest => physical_ingest ses srv' = physical_ingest ses srv
  end.
Proof.
  intros H. destruct ep;
    unfold summary_report, storage_stats, snapshot_stats, average_growth,
      ingest_per_day, cluster_node_status, current_streams, io_stats,
      physical_ingest;
    rewrite (query_ext ses srv srv' _ H); reflexivity.
Qed.

(** Replaces the block of [ep] run against one oracle by the same block
    run against another that gives [ep] the same reply. *)
Ltac own_reply ses srv srv' Hagree ep :=
  let Hx := fresh in
  pose proof (block_reads_own_reply ses srv srv' ep (Hagree ep ltac:(cbn; lia)))
    as Hx;
  cbv beta iota in Hx; rewrite Hx; clear Hx.

Lemma try_block_reads_up_to_failure ses (srv srv' : endpoint → reply)
    (d d' : RubrikData) (k : endpoint) (e : exn) :
  try_block ses srv d = (d', Failed (Query k) e) →
  (∀ i, (query_step i ≤ query_step k)%nat → srv' i = srv i) →
  try_block ses srv' d = (d', Failed (Query k) e).
Proof.
  intros H Hagree. split_blocks H;
    try match goal with E : Failed _ _ = Failed _ _ |- _ =>
      injection E as ? ?; subst end;
    try discriminate.
  all: unfold try_block, block.
  all: try own_reply ses srv srv' Hagree BackupJobsSummary.
  all: try own_reply ses srv srv' Hagree SystemStorage.
  all: try own_reply ses srv srv' Hagree SnapshotStoragePhysical.
  all: try own_reply ses srv srv' Hagree AverageStorageGrowth.
  all: try own_reply ses srv srv' Hagree PhysicalIngestPerDay.
  all: try own_reply ses srv srv' Hagree ClusterNode.
  all: try own_reply ses srv srv' Hagree StreamsCount.
  all: try own_reply ses srv srv' Hagree IoStats.
  all: try own_reply ses srv srv' Hagree PhysicalIngest.
  all: repeat match goal with
    | E : ?lhs = (_, _) |- context [?lhs] => rewrite E; cbv beta iota
    end.
  all: reflexivity.
Qed.

(** X9. A cycle stops at the first query that fails: when it fails at
    query [k], the replies of the endpoints after [k] are never asked for,
    so the call ends the same way and leaves the same monitor whatever
    those endpoints would have answered. *)
Theorem failed_cycle_ignores_later_replies (m m' : MonitorJSON) (login : reply)
    (srv srv' : endpoint → reply) (k : endpoint) (e : exn) :
  generate_json m login srv = (m', CycleFailed (Query k) e) →
  (∀ i, (query_step i ≤ query_step k)%nat → srv' i = srv i) →
  generate_json m login srv' = (m', CycleFailed (Query k) e).
Proof.
  unfold generate_json, try_except. intros H Hagree.
  destruct (is_none (token m)).
  - destruct (get_rubrik_token m login) as [m1 [t | e0]]; [| discriminate].
    destruct (is_none t); [discriminate |].
    destruct (try_block _ srv _) as [d1 [| s1 e1]] eqn:E; [discriminate |].
    injection H as <- -> ->.
    rewrite (try_block_reads_up_to_failure _ _ _ _ _ _ _ E Hagree). reflexivity.
  - destruct (try_block _ srv _) as [d1 [| s1 e1]] eqn:E; [discriminate |].
    injection H as <- -> ->.
    rewrite (try_block_reads_up_to_failure _ _ _ _ _ _ _ E Hagree). reflexivity.
Qed.

Lemma failed_cycle_ignores_later_replies_witness :
  let srv := with_reply SystemStorage (http_error 500) sample_server in
  let srv' := with_reply IoStats (Raises Timeout) srv in
  generate_json logged_in sample_login srv'
  = ((generate_json logged_in sample_login srv).1,
     CycleFailed (Query SystemStorage) (RubrikNotConnectedException SystemStorage)).
Proof.
  intros srv srv'.
  apply (failed_cycle_ignores_later_replies logged_in _ sample_login srv srv').
  - vm_compute. reflexivity.
  - intros i Hi. destruct i; cbn in Hi; try lia; reflexivity.
Defined.

Lemma try_block_failed_step ses srv (d d' : RubrikData) (k : endpoint) (e : exn) :
  try_block ses srv d = (d', Failed (Query k) e) →
  ∃ d0, step_raises ses srv k d0 d' e.
Proof.
  intros H. split_blocks H;
    try match goal with E : Failed _ _ = Failed _ _ |- _ =>
      injection E as ? ?; subst end;
    try discriminate.
  all: eexists; cbn [step_raises]; eassumption.
Qed.

(** X10. The exception that the handler of a failed cycle receives from
    query [k], when the request of [k] is what failed: the exception of the
    request itself when the GET raises, [RubrikNotConnectedException] for
    that endpoint when the status is not 200, whatever the body, and
    [JSONDecodeError] when the status is 200 and the body is not JSON. *)
Theorem failed_request_exception (m m' : MonitorJSON) (login : reply)
    (srv : endpoint → reply) (k : endpoint) (e : exn) :
  generate_json m login srv = (m', CycleFailed (Query k) e) →
  (token m ≠ VNone → session m ≠ None) →
  match srv k with
  | Raises e0 => e = e0
  | Returns r =>
      if status_code r =? 200 then body r = None → e = JSONDecodeError
      else e = RubrikNotConnectedException k
  end.
Proof.
  intros H Hinv. apply generate_json_cases in H as (_ & ses & H & Hses).
  assert (Hs : ses ≠ None).
  { destruct (is_none (token m)) eqn:Ht; subst ses; [discriminate |].
    apply Hinv, is_none_false, Ht. }
  apply try_block_failed_step in H as [d0 H].
  destruct ses as [s0 |]; [clear Hs | congruence].
  destruct k; cbn [step_raises] in H;
    unfold summary_report, storage_stats, snapshot_stats, average_growth,
      ingest_per_day, cluster_node_status, current_streams, io_stats,
      physical_ingest, mbind, M_bind, lift, query, session_get in H;
    cbn [mbind res_bind] in H;
    (destruct (srv _) as [e0 | r]; [injection H as _ H; congruence |]);
    cbn [mbind res_bind] in H;
    (destruct (status_code r =? 200); [| injection H as _ H; congruence]);
    intros Hbody; unfold field, stat_at, io_stat, loads in H;
    rewrite Hbody in H; cbn [mbind res_bind] in H;
    injection H as _ H; congruence.
Qed.

Lemma failed_request_exception_witness :
  let srv := with_reply ClusterNode (Returns (mkResponse 200 None)) sample_server in
  match srv ClusterNode with
  | Raises e0 => JSONDecodeError = e0
  | Returns r =>
      if status_code r =? 200 then body r = None → JSONDecodeError = JSONDecodeError
      else JSONDecodeError = RubrikNotConnectedException ClusterNode
  end.
Proof.
  intros srv.
  apply (failed_request_exception logged_in
           (generate_json logged_in sample_login srv).1 sample_login srv
           ClusterNode JSONDecodeError).
  - vm_compute. reflexivity.
  - intros _. discriminate.
Defined.

(** ** What a published cycle has read and stored *)

Lemma loads_bind_Ok {A} (r : Response) (f : value → res A) (a : A) :
  loads r ≫= f = Ok a → ∃ j, body r = Some j.
Proof. unfold loads. destruct (body r); [eauto | discriminate]. Qed.

Lemma field_bind_Ok {A} (r : Response) (key : string) (f : value → res A) (a : A) :
  field r key ≫= f = Ok a → ∃ j, body r = Some j.
Proof.
  intros H. apply res_bind_Ok in H as (v & H & _).
  exact (loads_bind_Ok _ _ _ H).
Qed.

Lemma stat_at_bind_Ok {A} (r : Response) (i : Z) (f : value → res A) (a : A) :
  stat_at r i ≫= f = Ok a → ∃ j, body r = Some j.
Proof.
  intros H. apply res_bind_Ok in H as (v & H & _).
  exact (loads_bind_Ok _ _ _ H).
Qed.

(** X11. Stats are published only when every one of the nine queries
    returned status 200 with a body that is JSON: a single endpoint that
    raises, answers another status or sends another body keeps the whole
    cycle from being published. *)
Theorem published_cycle_read_nine_replies (m m' : MonitorJSON) (login : reply)
    (srv : endpoint → reply) :
  generate_json m login srv = (m', Published) →
  ∀ ep, ∃ r j, srv ep = Returns r ∧ status_code r = 200 ∧ body r = Some j.
Proof.
  intros H ep. apply generate_json_try_block in H as (ses & H & _).
  apply try_block_completed in H
    as (rs & Hrs & Hsc & _ & _ & Htotal & _ & Hused & Hgrowth & Hyest & _
        & Hnode & sc & ir & iw & tr & tw & ing & v & Hcount & Hir & _
        & _ & _ & Hing & _).
  destruct (Hrs ep) as [Hep Hstatus].
  exists (rs ep). cut (∃ j, body (rs ep) = Some j); [intros [j Hj]; eauto |].
  destruct ep.
  - exact (loads_bind_Ok _ _ _ Hsc).
  - exact (field_bind_Ok _ _ _ _ Htotal).
  - exact (field_bind_Ok _ _ _ _ Hused).
  - exact (field_bind_Ok _ _ _ _ Hgrowth).
  - exact (stat_at_bind_Ok _ _ _ _ Hyest).
  - exact (loads_bind_Ok _ _ _ Hnode).
  - exact (loads_bind_Ok _ _ _ Hcount).
  - exact (loads_bind_Ok _ _ _ Hir).
  - exact (stat_at_bind_Ok _ _ _ _ Hing).
Qed.

Lemma published_cycle_read_nine_replies_witness :
  ∃ r j, sample_server IoStats = Returns r ∧ status_code r = 200 ∧ body r = Some j.
Proof.
  apply (published_cycle_read_nine_replies MonitorJSON_init
           (generate_json MonitorJSON_init sample_login sample_server).1
           sample_login sample_server).
  vm_compute. reflexivity.
Defined.

(** X12. The scalar fields behind published stats are those of this cycle
    alone: two published cycles against the same nine replies leave the
    same ten scalars, whatever the monitors held before, so no scalar of an
    earlier cycle, failed or not, survives a published one. *)
Theorem published_scalars_depend_on_replies_only (m m' n n' : MonitorJSON)
    (login login' : reply) (srv : endpoint → reply) :
  generate_json m login srv = (m', Published) →
  generate_json n login' srv = (n', Published) →
  scalars (data m') = scalars (data n').
Proof.
  intros Hm Hn.
  apply generate_json_try_block in Hm as (ses & Hm & _).
  apply generate_json_try_block in Hn as (ses' & Hn & _).
  apply try_block_completed in Hm
    as (rs & Hrs & H1 & H2 & H3 & H4 & H5 & H6 & H7 & H8 & H9 & H10 & _).
  apply try_block_completed in Hn
    as (rs' & Hrs' & G1 & G2 & G3 & G4 & G5 & G6 & G7 & G8 & G9 & G10 & _).
  assert (Heq : ∀ ep, rs' ep = rs ep).
  { intros ep. destruct (Hrs ep) as [Hep _]. destruct (Hrs' ep) as [Hep' _].
    congruence. }
  rewrite !Heq in *. unfold scalars. congruence.
Qed.

Lemma published_scalars_depend_on_replies_only_witness :
  let m := (generate_json logged_in sample_login
              (with_reply PhysicalIngest (http_error 500) sample_server)).1 in
  scalars (data (generate_json MonitorJSON_init sample_login sample_server).1)
  = scalars (data (generate_json m sample_login sample_server).1).
Proof.
  intros m.
  apply (published_scalars_depend_on_replies_only MonitorJSON_init _ m _
           sample_login sample_login sample_server).
  - vm_compute. reflexivity.
  - vm_compute. reflexivity.
Defined.

(** X13. A published cycle stores the three job counts and the stream
    count as they come out of the response, without conversion or check of
    their type, and the node status that the aggregation of the node list
    gives. *)
Theorem published_counts_as_received (m m' : MonitorJSON) (login : reply)
    (srv : endpoint → reply) (rs : endpoint → Response) :
  generate_json m login srv = (m', Published) →
  (∀ ep, srv ep = Returns (rs ep)) →
  field (rs BackupJobsSummary) "successCount" = Ok (success_count (data m')) ∧
  field (rs BackupJobsSummary) "failureCount" = Ok (failure_count (data m')) ∧
  field (rs BackupJobsSummary) "runningCount" = Ok (running_count (data m')) ∧
  (j ← loads (rs ClusterNode); aggregate_node_status j)
  = Ok (node_status (data m')) ∧
  ∃ sc v tp ing,
    field (rs StreamsCount) "count" = Ok sc ∧
    series (data m') = window_saved v tp ing sc (data m).
Proof.
  intros H Hrs. apply generate_json_try_block in H as (ses & H & _).
  apply try_block_completed in H
    as (rs' & Hrs' & H1 & H2 & H3 & _ & _ & _ & _ & _ & _ & H10
        & sc & ir & iw & tr & tw & ing & v & Hcount & _ & _ & _ & _ & _ & _
        & Hseries).
  assert (Heq : ∀ ep, rs' ep = rs ep).
  { intros ep. destruct (Hrs' ep) as [Hep _]. rewrite Hrs in Hep. congruence. }
  rewrite !Heq in *. repeat (split; [assumption |]).
  exists sc, v, (tr + tw), ing. auto.
Qed.

Lemma published_counts_as_received_witness :
  let rs := λ ep, match sample_server ep with
                  | Returns r => r
                  | Raises _ => mkResponse 0 None
                  end in
  let m' := (generate_json MonitorJSON_init sample_login sample_server).1 in
  field (rs BackupJobsSummary) "successCount" = Ok (success_count (data m')).
Proof.
  intros rs m'.
  refine (proj1 (published_counts_as_received MonitorJSON_init m' sample_login
                   sample_server rs _ _)).
  - vm_compute. reflexivity.
  - intros []; reflexivity.
Defined.

(** ** Calls that do not get a token *)

(** X14. A call that ends without a token, because the login failed or
    raised, has sent no query and has left the data alone: it ends the same
    way, with the same monitor, whatever the nine endpoints would have
    answered. *)
Theorem call_without_token_sends_no_query (m m' : MonitorJSON) (login : reply)
    (srv : endpoint → reply) (o : outcome) :
  generate_json m login srv = (m', o) →
  o = LoginFailed ∨ (∃ e, o = Raised e) →
  data m' = data m ∧ ∀ srv', generate_json m login srv' = (m', o).
Proof.
  intros H Ho. pose proof (generate_json_cases _ _ _ _ _ H) as Hc.
  unfold generate_json in *.
  destruct Ho as [-> | [e ->]].
  - destruct Hc as (Hm' & Htok & Hres). split; [subst m'; reflexivity |].
    intros srv'. rewrite Htok in *. cbn [is_none] in *.
    destruct (get_rubrik_token m login) as [m1 [t | e]]; cbn in Hres;
      [| discriminate].
    injection Hres as ->. exact H.
  - destruct Hc as (Hm' & Htok & Hres). split; [subst m'; reflexivity |].
    intros srv'. rewrite Htok in *. cbn [is_none] in *.
    destruct (get_rubrik_token m login) as [m1 [t | e0]]; cbn in Hres;
      [discriminate |].
    exact H.
Qed.

Lemma call_without_token_sends_no_query_witness :
  let m' := (generate_json MonitorJSON_init (Raises ConnectionError) sample_server).1 in
  data m' = data MonitorJSON_init ∧
  ∀ srv', generate_json MonitorJSON_init (Raises ConnectionError) srv'
          = (m', LoginFailed).
Proof.
  intros m'.
  apply (call_without_token_sends_no_query MonitorJSON_init m'
           (Raises ConnectionError) sample_server LoginFailed).
  - vm_compute. reflexivity.
  - left. reflexivity.
Defined.

(** X15. [get_rubrik_token] returns a token exactly when the body of the
    login response is a JSON object with a ["token"] that is not null: the
    HTTP status of the response is never looked at, and a ["message"]
    beside the token changes nothing. *)
Theorem login_returns_token_iff (m : MonitorJSON) (login : reply) (t : value) :
  t ≠ VNone →
  ((get_rubrik_token m login).2 = Ok t ↔
   ∃ r items, login = Returns r ∧ body r = Some (VDict items) ∧
              dict_lookup "token" items = Some t).
Proof.
  intros Ht. split.
  - destruct login as [e | r]; cbn.
    + destruct (login_caught e); cbn; congruence.
    + unfold loads. destruct (body r) as [[| | | | | | items] |] eqn:Eb;
        cbn; try discriminate.
      destruct (dict_lookup "token" items) as [t' |] eqn:Et.
      * intros [= ->]. eauto.
      * destruct (dict_lookup "message" items) as [[] |]; cbn; congruence.
  - intros (r & items & -> & Hb & Htok). cbn. unfold loads. rewrite Hb.
    cbn. rewrite Htok. reflexivity.
Qed.

Lemma login_returns_token_iff_witness :
  (get_rubrik_token MonitorJSON_init
     (Returns (mkResponse 401
        (Some (VDict [("message", VStr "expired"); ("token", VStr "8de9")]))))).2
  = Ok (VStr "8de9").
Proof.
  apply (login_returns_token_iff MonitorJSON_init _ (VStr "8de9")).
  - discriminate.
  - eexists _, _. repeat split; reflexivity.
Defined.

(** ** Bounds of the subscripts *)

Lemma index_of_from_end (len k : nat) :
  (0 < k ≤ len)%nat → index_of len (- Z.of_nat k) = Some (len - k)%nat.
Proof.
  intros Hk. unfold index_of.
  replace (0 <=? - Z.of_nat k) with false by lia. cbn [andb].
  replace (- Z.of_nat len <=? - Z.of_nat k) with true by lia.
  replace (- Z.of_nat k <? 0) with true by lia.
  cbn. f_equal. lia.
Qed.

Lemma index_of_short (len k : nat) :
  (len < k)%nat → index_of len (- Z.of_nat k) = None.
Proof.
  intros Hk. unfold index_of.
  replace (0 <=? - Z.of_nat k) with false by lia. cbn [andb].
  replace (- Z.of_nat len <=? - Z.of_nat k) with false by lia.
  reflexivity.
Qed.

(** X16. The two-day ingest series is read from its end.  With fewer than
    two elements the block raises [IndexError] before it assigns anything,
    even when the element for today is there; with two or more, yesterday
    and today are the last two elements, however long the series is. *)
Theorem ingest_per_day_reads_last_two (ses : option Session)
    (srv : endpoint → reply) (r : Response) (items : list value) (d : RubrikData) :
  ses ≠ None →
  srv PhysicalIngestPerDay = Returns r → status_code r = 200 →
  body r = Some (VList items) →
  ((length items < 2)%nat →
   ingest_per_day ses srv d = (d, Raise IndexError)) ∧
  (∀ older a b y t,
     items = older ++ [a; b] →
     getitem_str a "stat" = Ok (VInt y) → getitem_str b "stat" = Ok (VInt t) →
     0 ≤ y < 2 ^ 24 * 10 ^ 9 → 0 ≤ t < 2 ^ 24 * 10 ^ 9 →
     ingest_per_day ses srv d
     = (set_ingested_today (t / 10 ^ 9) (set_ingested_yesterday (y / 10 ^ 9) d),
        Ok tt)).
Proof.
  intros Hses Hsrv Hstatus Hbody.
  assert (Hq : query ses srv PhysicalIngestPerDay = Ok r).
  { unfold query, session_get. destruct ses; [| congruence].
    rewrite Hsrv. cbn [mbind res_bind]. rewrite Hstatus. reflexivity. }
  split.
  - intros Hlen. unfold ingest_per_day, mbind at 1, M_bind, lift. rewrite Hq.
    unfold mbind at 1, M_bind, stat_at, loads. rewrite Hbody.
    cbn [mbind res_bind getitem_int].
    change (-2) with (- Z.of_nat 2).
    rewrite (index_of_short (length items) 2) by exact Hlen. reflexivity.
  - intros older a b y t -> Ha Hb Hy Ht.
    assert (Hy' : stat_at r (-2) = Ok (VInt y)).
    { unfold stat_at, loads. rewrite Hbody. cbn [mbind res_bind getitem_int].
      change (-2) with (- Z.of_nat 2).
      rewrite (index_of_from_end _ 2) by (rewrite length_app; cbn; lia).
      rewrite length_app. cbn [length].
      replace (length older + 2 - 2)%nat with (length older) by lia.
      rewrite list_lookup_middle by reflexivity. exact Ha. }
    assert (Ht' : stat_at r (-1) = Ok (VInt t)).
    { unfold stat_at, loads. rewrite Hbody. cbn [mbind res_bind getitem_int].
      change (-1) with (- Z.of_nat 1).
      rewrite (index_of_from_end _ 1) by (rewrite length_app; cbn; lia).
      rewrite length_app. cbn [length].
      replace (length older + 2 - 1)%nat with (length (older ++ [a])) by
        (rewrite length_app; cbn; lia).
      change (older ++ [a; b]) with (older ++ [a] ++ [b]).
      rewrite app_assoc, list_lookup_middle by reflexivity. exact Hb. }
    unfold ingest_per_day, mbind, M_bind, lift, assign. rewrite Hq, Hy', Ht'.
    cbn [res_bind]. rewrite !bytes_to_gigabytes by assumption. reflexivity.
Qed.

Lemma ingest_per_day_reads_last_two_witness :
  let r := mkResponse 200 (Some (VList [stat 3000000000])) in
  ingest_per_day (Some RequestsSession)
    (with_reply PhysicalIngestPerDay (Returns r) sample_server) RubrikData_init
  = (RubrikData_init, Raise IndexError).
Proof.
  intros r.
  refine (proj1 (ingest_per_day_reads_last_two (Some RequestsSession)
                   (with_reply PhysicalIngestPerDay (Returns r) sample_server)
                   r [stat 3000000000] RubrikData_init _ _ _ _) _).
  - discriminate.
  - reflexivity.
  - reflexivity.
  - reflexivity.
  - cbn. lia.
Defined.

Lemma node_status_loop_app (status_json : value) (xs ys : list nat) (acc : value) :
  node_status_loop status_json (xs ++ ys) acc
  = node_status_loop status_json xs acc ≫= node_status_loop status_json ys.
Proof.
  revert acc. induction xs as [| x xs IH]; intros acc; [reflexivity |].
  cbn [app node_status_loop].
  destruct (getitem_str status_json "data") as [d |]; [| reflexivity].
  cbn [mbind res_bind].
  destruct (getitem_int d (Z.of_nat x)) as [nd |]; [| reflexivity].
  cbn [mbind res_bind].
  destruct (getitem_str nd "status") as [s |]; [| reflexivity].
  cbn [mbind res_bind]. destruct (ne_str s "OK"); apply IH.
Qed.

Lemma node_status_loop_past_end (status_json : value) (nodes : list value)
    (j : nat) (acc : value) :
  getitem_str status_json "data" = Ok (VList nodes) →
  node_status_loop status_json (seq (length nodes) (S j)) acc = Raise IndexError.
Proof.
  intros Hdata. cbn [seq node_status_loop]. rewrite Hdata.
  cbn [mbind res_bind getitem_int]. unfold index_of.
  rewrite Z.ltb_irrefl.
  destruct (Z.ltb_spec (Z.of_nat (length nodes)) 0) as [Hneg | _]; [lia |].
  rewrite !andb_false_r. reflexivity.
Qed.

(** X17. The node loop trusts ["total"], not the length of ["data"]: with
    a total of [k] it reads the first [k] nodes only, so a non-OK node
    beyond them goes unreported and a total of zero or less gives ["OK"];
    with a total above the number of nodes it raises [IndexError]. *)
Theorem aggregate_node_status_trusts_total (status_json : value)
    (nodes : list value) (statuses : list string) (k : Z) :
  getitem_str status_json "total" = Ok (VInt k) →
  getitem_str status_json "data" = Ok (VList nodes) →
  Forall2 (λ nd s, getitem_str nd "status" = Ok (VStr s)) nodes statuses →
  (k ≤ Z.of_nat (length nodes) →
   aggregate_node_status status_json
   = Ok (VStr (last_non_ok_status (take (Z.to_nat k) statuses)))) ∧
  (Z.of_nat (length nodes) < k →
   aggregate_node_status status_json = Raise IndexError).
Proof.
  intros Htotal Hdata Hall.
  unfold aggregate_node_status. rewrite Htotal.
  cbn [mbind res_bind py_range as_int]. split.
  - intros Hk.
    assert (Hsplit : nodes = take (Z.to_nat k) nodes ++ drop (Z.to_nat k) nodes)
      by (symmetry; apply take_drop).
    assert (Hprefix : Forall2 (λ nd s, getitem_str nd "status" = Ok (VStr s))
                        (take (Z.to_nat k) nodes) (take (Z.to_nat k) statuses))
      by (apply Forall2_take, Hall).
    assert (Hlen : length (take (Z.to_nat k) nodes) = Z.to_nat k)
      by (rewrite length_take; lia).
    rewrite <- Hlen at 1.
    rewrite Hsplit in Hdata.
    (* the loop over the first [k] indices *)
    assert (Hloop : ∀ (pre mid post : list value) (ss : list string) (acc : string),
              getitem_str status_json "data" = Ok (VList (pre ++ mid ++ post)) →
              Forall2 (λ nd s, getitem_str nd "status" = Ok (VStr s)) mid ss →
              node_status_loop status_json (seq (length pre) (length mid)) (VStr acc)
              = Ok (VStr (fold_status acc ss))).
    { intros pre mid post ss acc Hd Hf. revert pre acc Hd.
      induction Hf as [| nd s mid ss Hnd Hf IH]; intros pre acc Hd;
        [reflexivity |].
      cbn [length seq node_status_loop]. rewrite Hd.
      cbn [mbind res_bind getitem_int].
      rewrite index_of_lt by (rewrite !length_app; cbn; lia).
      cbn [app]. rewrite list_lookup_middle by reflexivity.
      cbn [mbind res_bind]. rewrite Hnd. cbn [mbind res_bind ne_str].
      fold (non_ok s).
      specialize (IH (pre ++ [nd])). rewrite length_app in IH. cbn [length] in IH.
      replace (S (length pre)) with (length pre + 1)%nat by lia.
      unfold fold_status. cbn [fold_left].
      destruct (non_ok s); apply IH; rewrite <- app_assoc; exact Hd. }
    pose proof (Hloop [] _ _ _ "OK" Hdata Hprefix) as Hrun.
    cbn [length] in Hrun. rewrite Hrun, fold_status_last. reflexivity.
  - intros Hk.
    replace (Z.to_nat k) with (length nodes + S (Z.to_nat k - length nodes - 1))%nat
      by lia.
    rewrite seq_app, node_status_loop_app.
    pose proof (node_status_loop_fold status_json [] nodes statuses "OK" Hdata Hall)
      as Hrun.
    cbn [length] in Hrun. rewrite Hrun. cbn [mbind res_bind].
    apply node_status_loop_past_end, Hdata.
Qed.

Lemma aggregate_node_status_trusts_total_witness :
  aggregate_node_status
    (VDict [("total", VInt 1); ("data", VList [node "OK"; node "FAILED"])])
  = Ok (VStr (last_non_ok_status (take (Z.to_nat 1) ["OK"; "FAILED"]))).
Proof.
  refine (proj1 (aggregate_node_status_trusts_total
                   (VDict [("total", VInt 1);
                           ("data", VList [node "OK"; node "FAILED"])])
                   [node "OK"; node "FAILED"] ["OK"; "FAILED"] 1
                   eq_refl eq_refl _) _).
  - repeat constructor.
  - cbn. lia.
Defined.

(** ** The conversions outside the range where they truncate *)

Lemma long_true_divide_opp (n d : Z) :
  0 < n → 0 < d →
  (f ← long_true_divide (- n) d; int_of_float f)
  = z ← (f ← long_true_divide n d; int_of_float f); Ok (- z).
Proof.
  intros Hn Hd. unfold long_true_divide.
  replace (d =? 0) with false by lia.
  replace (- n <? 0) with true by lia.
  replace (n <? 0) with false by lia.
  replace (d <? 0) with false by lia.
  rewrite Z.abs_opp, (Z.abs_eq n) by lia.
  replace (n =? 0) with false by lia.
  cbn [xorb].
  destruct (round_half_even _ _ _ =? 2 ^ prec).
  - destruct (2 ^ (prec - 1)) as [| p | p]; [reflexivity | | reflexivity].
    destruct (emax <? _); [reflexivity |].
    cbn [mbind res_bind int_of_float cond_Zopp]. reflexivity.
  - destruct (round_half_even _ _ _) as [| p | p]; [reflexivity | | reflexivity].
    destruct (emax <? _); [reflexivity |].
    cbn [mbind res_bind int_of_float cond_Zopp]. reflexivity.
Qed.

Lemma gigabytes_toward_zero (n : Z) :
  - (2 ^ 24 * 10 ^ 9) < n < 2 ^ 24 * 10 ^ 9 →
  int_truediv (VInt n) (1000 * 1000 * 1000) = Ok (n ÷ 10 ^ 9).
Proof.
  intros Hn. destruct (Z_le_gt_dec 0 n) as [Hpos | Hneg].
  - rewrite bytes_to_gigabytes by lia. f_equal.
    symmetry. apply Z.quot_div_nonneg; lia.
  - replace n with (- - n) by lia.
    unfold int_truediv, truediv, as_int.
    rewrite (long_true_divide_opp (- n) (1000 * 1000 * 1000)) by lia.
    pose proof (bytes_to_gigabytes (- n) ltac:(lia)) as H.
    unfold int_truediv, truediv, as_int in H. rewrite H.
    cbn [mbind res_bind]. f_equal.
    rewrite Z.quot_opp_l by lia. f_equal.
    symmetry. apply Z.quot_div_nonneg; lia.
Qed.

(** X18. A negative byte count is converted toward zero, not downward:
    within [2^24 * 10^9] of zero, the growth per day that a cycle publishes
    is the quotient by [10^9] with the fraction dropped, so that a store
    that shrinks by less than a gigabyte a day reports 0 and not -1. *)
Theorem negative_growth_rounds_toward_zero (m m' : MonitorJSON) (login : reply)
    (srv : endpoint → reply) (r : Response) (n : Z) :
  generate_json m login srv = (m', Published) →
  srv AverageStorageGrowth = Returns r →
  field r "bytes" = Ok (VInt n) →
  - (2 ^ 24 * 10 ^ 9) < n < 2 ^ 24 * 10 ^ 9 →
  avg_growth_per_day (data m') = n ÷ 10 ^ 9.
Proof.
  intros H Hsrv Hbytes Hn.
  apply generate_json_try_block in H as (ses & H & _).
  apply try_block_completed in H
    as (rs & Hrs & _ & _ & _ & _ & _ & _ & Hgrowth & _).
  destruct (Hrs AverageStorageGrowth) as [Hep _].
  rewrite Hsrv in Hep. injection Hep as Hep.
  rewrite <- Hep, Hbytes in Hgrowth. cbn [mbind res_bind] in Hgrowth.
  rewrite gigabytes_toward_zero in Hgrowth by exact Hn. congruence.
Qed.

Lemma negative_growth_rounds_toward_zero_witness :
  let srv := with_reply AverageStorageGrowth
               (http_ok (VDict [("bytes", VInt (-999999999))])) sample_server in
  avg_growth_per_day (data (generate_json logged_in sample_login srv).1)
  = (-999999999) ÷ 10 ^ 9.
Proof.
  intros srv.
  apply (negative_growth_rounds_toward_zero logged_in _ sample_login srv
           (mkResponse 200 (Some (VDict [("bytes", VInt (-999999999))])))
           (-999999999)).
  - vm_compute. reflexivity.
  - reflexivity.
  - reflexivity.
  - vm_compute. split; reflexivity.
Defined.

Lemma quotient_exponent_lt (n d L : Z) :
  0 < n → 0 < d → 0 ≤ L → n < d * 2 ^ L → quotient_exponent n d < L.
Proof.
  intros Hn Hd HL Hlt.
  pose proof (quotient_exponent_range n d) as Hqe.
  destruct (Z_lt_dec (Z.log2 n - Z.log2 d) L) as [Hl | Hl]; [lia |].
  assert (Hlog : Z.log2 n < Z.log2 d + L + 1).
  { apply Z.log2_lt_pow2; [lia |].
    pose proof (Z.log2_spec d Hd) as [_ Hd2].
    pose proof (Z.log2_nonneg d).
    replace (Z.log2 d + L + 1) with (Z.succ (Z.log2 d) + L) by lia.
    rewrite Z.pow_add_r by lia.
    assert (0 < 2 ^ L) by (apply Z.pow_pos_nonneg; lia). nia. }
  unfold quotient_exponent.
  replace (Z.log2 n - Z.log2 d) with L by lia.
  replace (0 <=? L) with true by lia.
  replace (n <? d * 2 ^ L) with true by lia. lia.
Qed.

Lemma round_half_even_near (n d k : Z) :
  0 ≤ n → 0 < d → 0 ≤ k →
  n / d ≤ round_half_even (n * 2 ^ k / d) ((n * 2 ^ k) mod d) d / 2 ^ k ≤ n / d + 1.
Proof.
  intros Hn Hd Hk.
  assert (HP : 0 < 2 ^ k) by (apply Z.pow_pos_nonneg; lia).
  set (P := 2 ^ k) in *.
  pose proof (Z.div_mod n d ltac:(lia)) as Hnd.
  pose proof (Z.mod_pos_bound n d Hd) as Ht.
  set (q := n / d) in *. set (t := n mod d) in *.
  pose proof (Z.div_mod (n * P) d ltac:(lia)) as HnP.
  pose proof (Z.mod_pos_bound (n * P) d Hd) as Hr.
  set (m0 := n * P / d) in *. set (r := (n * P) mod d) in *.
  assert (Hlo : q * P <= m0) by nia.
  assert (Hhi : m0 <= q * P + (P - 1)) by nia.
  unfold round_half_even.
  destruct ((d <? 2 * r) || ((2 * r =? d) && Z.odd m0)).
  - split.
    + apply Z.div_le_lower_bound; lia.
    + apply Z.lt_succ_r, Z.div_lt_upper_bound; lia.
  - split.
    + apply Z.div_le_lower_bound; lia.
    + apply Z.lt_succ_r, Z.div_lt_upper_bound; lia.
Qed.

Lemma int_truediv_near (n d k : Z) :
  0 < n < 2 ^ 1000 → 0 < d → 0 < k ≤ 1074 →
  quotient_exponent n d = 52 - k →
  ∃ g, int_truediv (VInt n) d = Ok g ∧ n / d ≤ g ≤ n / d + 1.
Proof.
  intros Hn Hd Hk He.
  pose proof (round_half_even_near n d k ltac:(lia) Hd ltac:(lia)) as Hnear.
  unfold int_truediv, truediv, as_int, long_true_divide.
  replace (d =? 0) with false by lia.
  replace (n <? 0) with false by lia.
  replace (d <? 0) with false by lia.
  rewrite (Z.abs_eq n), (Z.abs_eq d) by lia.
  replace (n =? 0) with false by lia.
  rewrite He. unfold prec, emax.
  replace (Z.max (52 - k - (53 - 1)) (3 - 1024 - 53)) with (- k) by lia.
  replace (0 <=? - k) with false by lia.
  rewrite Z.opp_involutive.
  set (m := round_half_even (n * 2 ^ k / d) ((n * 2 ^ k) mod d) d) in *.
  assert (HP : 0 < 2 ^ k) by (apply Z.pow_pos_nonneg; lia).
  assert (Hq : 0 <= n / d < 2 ^ 1000).
  { split; [apply Z.div_pos; lia |].
    apply Z.div_lt_upper_bound; nia. }
  destruct (m =? 2 ^ 53) eqn:Hm.
  - apply Z.eqb_eq in Hm. rewrite Hm in Hnear.
    change (2 ^ (53 - 1)) with 4503599627370496.
    replace (1024 <? Z.log2 4503599627370496 + (- k + 1) + 1) with false
      by (change (Z.log2 4503599627370496) with 52; lia).
    cbn [mbind res_bind int_of_float xorb cond_Zopp].
    eexists. split; [reflexivity |].
    destruct (0 <=? - k + 1) eqn:Hk1.
    + assert (k = 1) by lia. subst k. exact Hnear.
    + replace (2 ^ k) with (2 * 2 ^ (- (- k + 1))) in Hnear.
      * change (2 ^ 53) with (2 * 4503599627370496) in Hnear.
        rewrite Z.div_mul_cancel_l in Hnear; [exact Hnear | | lia].
        apply Z.pow_nonzero; lia.
      * rewrite <- Z.pow_succ_r by lia. f_equal. lia.
  - assert (Hm0 : 0 <= m).
    { unfold m, round_half_even.
      assert (0 <= n * 2 ^ k / d) by (apply Z.div_pos; nia).
      destruct (_ || _); lia. }
    destruct m as [|p|p] eqn:Em; [| |lia].
    + cbn [mbind res_bind int_of_float]. eexists. split; [reflexivity |].
      rewrite Z.div_0_l in Hnear by lia. exact Hnear.
    + assert (Hlog : Z.log2 (Z.pos p) < 1001 + k).
      { apply Z.log2_lt_pow2; [lia |].
        rewrite Z.pow_add_r by lia.
        pose proof (Z.div_mod (Z.pos p) (2 ^ k) ltac:(lia)) as Hdm.
        pose proof (Z.mod_pos_bound (Z.pos p) (2 ^ k) HP).
        change (2 ^ 1001) with (2 * 2 ^ 1000).
        assert (0 < 2 ^ 1000) by (apply Z.pow_pos_nonneg; lia). nia. }
      replace (1024 <? Z.log2 (Z.pos p) + - k + 1) with false by lia.
      cbn [mbind res_bind int_of_float xorb cond_Zopp].
      replace (0 <=? - k) with false by lia.
      rewrite Z.opp_involutive. eexists. split; [reflexivity | exact Hnear].
Qed.

(** X19. Above the range where they truncate, the conversions stay within
    one unit: for a non-negative count [n] and a divisor [d] with
    [n < d * 2^52], the expression [int(n / d)] returns the integer
    quotient or the integer quotient plus one, and raises nothing.  This
    covers the division by [10^9] up to [2^52] gigabytes and the division
    by [2^20] up to [2^52] megabytes. *)
Theorem conversions_err_by_at_most_one (n d : Z) :
  0 ≤ n → 0 < d < 2 ^ 900 → n < d * 2 ^ 52 →
  ∃ g, int_truediv (VInt n) d = Ok g ∧ n / d ≤ g ≤ n / d + 1.
Proof.
  intros Hn Hd Hlt.
  destruct (Z.eq_dec n 0) as [-> | Hn0].
  { exists 0. unfold int_truediv, truediv, as_int, long_true_divide.
    replace (d =? 0) with false by lia. cbn. split; [reflexivity |].
    rewrite Z.div_0_l by lia. lia. }
  pose proof (quotient_exponent_lt n d 52 ltac:(lia) ltac:(lia) ltac:(lia) Hlt)
    as Hup.
  pose proof (quotient_exponent_range n d) as Hqe.
  assert (Hld : 0 <= Z.log2 d < 900).
  { split; [apply Z.log2_nonneg |]. apply Z.log2_lt_pow2; lia. }
  pose proof (Z.log2_nonneg n) as Hln.
  assert (Hn1000 : n < 2 ^ 1000).
  { eapply Z.lt_le_trans; [exact Hlt |].
    change (2 ^ 1000) with (2 ^ 948 * 2 ^ 52).
    apply Z.mul_le_mono_nonneg_r; [lia |].
    transitivity (2 ^ 900); [lia |]. apply Z.pow_le_mono_r; lia. }
  apply (int_truediv_near n d (52 - quotient_exponent n d)); lia.
Qed.

Lemma conversions_err_by_at_most_one_witness :
  ∃ g, int_truediv (VInt 16777216999999999) 1000000000 = Ok g ∧
       16777216999999999 / 1000000000 ≤ g ≤ 16777216999999999 / 1000000000 + 1.
Proof.
  apply (conversions_err_by_at_most_one 16777216999999999 1000000000).
  - lia.
  - split; [lia | reflexivity].
  - reflexivity.
Defined.
